(** * EncryptedSpamFilter: the encrypted-record ledger and its disclosure workflow

    A shallow embedding of [contracts/SpamGuard_Z.sol] (the contract
    [EncryptedSpamFilter]) and of the client workflows of
    [frontend/web/src/App.tsx], with the properties of the record lifecycle
    proved over it.

    Conventions.
    - A Solidity [mapping(string => EmailData)] is a [gmap string EmailData]
      read through [registry_at], which returns the all-zero record for a key
      that was never written, as storage does.
    - A reverted call is [Reverted r]; the transaction layer ([apply_call])
      keeps the pre-state in that case, as the EVM does.
    - The FHE library ([@fhevm/solidity]) is outside the repository: its
      operations are the fields of the class [FHE].
    - The presence tests of the contract take [bytes(...).length] of an
      [address], a conversion Solidity does not define: what it computes is
      the field of the class [AddressBytes], and every property is proved
      for whatever it computes unless it says otherwise. *)

From Stdlib Require Import ZArith Lia.
From stdpp Require Import base option list strings gmap.

Local Open Scope Z_scope.

(** ** Primitive data *)

Definition bytes : Type := list Byte.byte.
#[global] Instance byte_eq_decision : EqDecision Byte.byte := Byte.byte_eq_dec.
Definition bytes32 : Type := Z.
Definition address : Type := Z.
Definition euint32 : Type := bytes32.
Definition externalEuint32 : Type := bytes32.

(** ** Reverts *)

Inductive Revert : Type :=
| RequireFailed (reason : string)  (* a failed [require(cond, reason)] *)
| FromExternalReverted             (* [FHE.fromExternal] rejected the input proof *)
| CheckSignaturesReverted          (* [FHE.checkSignatures] rejected the signatures *)
| AbiDecodeReverted.               (* [abi.decode] rejected the payload *)

Inductive Result (A : Type) : Type :=
| Ok (a : A)
| Reverted (r : Revert).
Arguments Ok {A} a.
Arguments Reverted {A} r.

#[global] Instance Result_ret : MRet Result := fun A a => Ok a.
#[global] Instance Result_bind : MBind Result := fun A B f m =>
  match m with
  | Ok a => f a
  | Reverted r => Reverted r
  end.

Definition require (cond : bool) (reason : string) : Result unit :=
  if cond then Ok tt else Reverted (RequireFailed reason).

Definition or_revert {A : Type} (r : Revert) (o : option A) : Result A :=
  match o with
  | Some a => Ok a
  | None => Reverted r
  end.

(** ** The FHE library interface

    [fromExternal] validates an external handle against its input proof and
    reverts ([None]) when the proof is rejected; [checkSignatures] reverts
    ([false]) unless the decryption oracle signed the clear values for
    exactly the given handle list. *)

Class FHE : Type := {
  fromExternal : externalEuint32 -> bytes -> option euint32;
  isInitialized : euint32 -> bool;
  toBytes32 : euint32 -> bytes32;
  checkSignatures : list bytes32 -> bytes -> bytes -> bool
}.

(** ** ABI decoding of [(bool, uint32)]

    [abi.decode(data, (bool, uint32))] reads two 32-byte big-endian words.
    It reverts when the data is shorter than 64 bytes, when the first word
    is not 0 or 1, or when the second word does not fit 32 bits.  Bytes
    after the second word are ignored. *)

Module Abi.

Definition be_to_Z (bs : bytes) : Z :=
  fold_left (fun acc b => acc * 256 + Z.of_N (Byte.to_N b)) bs 0.

Definition word (n : nat) (data : bytes) : option Z :=
  let w := take 32 (drop (32 * n) data) in
  if decide (length w = 32%nat) then Some (be_to_Z w) else None.

Definition decode_bool_uint32 (data : bytes) : option (bool * Z) :=
  w0 ← word 0 data;
  w1 ← word 1 data;
  if (w0 <? 2) && (w1 <? 2 ^ 32) then Some (w0 =? 1, w1) else None.

Definition byte_of_Z (z : Z) : Byte.byte :=
  default Byte.x00 (Byte.of_N (Z.to_N (z mod 256))).

Fixpoint Z_to_be (len : nat) (z : Z) : bytes :=
  match len with
  | O => []
  | S k => Z_to_be k (z / 256) ++ [byte_of_Z z]
  end.

Definition encode_bool_uint32 (b : bool) (n : Z) : bytes :=
  Z_to_be 32 (if b then 1 else 0) ++ Z_to_be 32 n.

End Abi.

(** ** Contract state *)

Record EmailData : Type := mkEmailData {
  encryptedContent : euint32;
  publicMetadata : Z;
  sender : address;
  timestamp : Z;
  isSpam : bool;
  decryptedScore : Z;
  isVerified : bool
}.

(** The value every key of the mapping has before it is written. *)
Definition EmailData_zero : EmailData :=
  mkEmailData 0 0 0 0 false 0 false.

Inductive Event : Type :=
| EmailProcessed (emailId : string) (from : address)
| SpamVerification (emailId : string) (spam : bool) (score : Z).

(** Grants recorded in the FHE access-control list by [FHE.allowThis] and
    [FHE.makePubliclyDecryptable]. *)
Inductive AclGrant : Type :=
| AllowThis (h : euint32)
| PubliclyDecryptable (h : euint32).

Record Contract : Type := mkContract {
  emailRegistry : gmap string EmailData;
  emailIds : list string;
  eventLog : list Event;
  fheAcl : list AclGrant
}.

Definition initial : Contract := mkContract ∅ [] [] [].

(** [msg.sender] and [block.timestamp] of a call. *)
Record Env : Type := mkEnv {
  msg_sender : address;
  block_timestamp : Z
}.

(** [emailRegistry[emailId]] as an rvalue. *)
Definition registry_at (s : Contract) (emailId : string) : EmailData :=
  default EmailData_zero (emailRegistry s !! emailId).

(** [emailRegistry[emailId] = d]. *)
Definition registry_put (emailId : string) (d : EmailData) (s : Contract) : Contract :=
  mkContract (<[emailId := d]> (emailRegistry s)) (emailIds s) (eventLog s) (fheAcl s).

Definition set_isSpam (v : bool) (d : EmailData) : EmailData :=
  mkEmailData (encryptedContent d) (publicMetadata d) (sender d) (timestamp d)
              v (decryptedScore d) (isVerified d).

Definition set_decryptedScore (v : Z) (d : EmailData) : EmailData :=
  mkEmailData (encryptedContent d) (publicMetadata d) (sender d) (timestamp d)
              (isSpam d) v (isVerified d).

Definition set_isVerified (v : bool) (d : EmailData) : EmailData :=
  mkEmailData (encryptedContent d) (publicMetadata d) (sender d) (timestamp d)
              (isSpam d) (decryptedScore d) v.

(** [emailRegistry[emailId].field = v]: a write to one field of the slot. *)
Definition registry_update (emailId : string) (f : EmailData -> EmailData) (s : Contract) : Contract :=
  registry_put emailId (f (registry_at s emailId)) s.

Definition push_id (emailId : string) (s : Contract) : Contract :=
  mkContract (emailRegistry s) (emailIds s ++ [emailId]) (eventLog s) (fheAcl s).

Definition emit (e : Event) (s : Contract) : Contract :=
  mkContract (emailRegistry s) (emailIds s) (eventLog s ++ [e]) (fheAcl s).

Definition grant (g : AclGrant) (s : Contract) : Contract :=
  mkContract (emailRegistry s) (emailIds s) (eventLog s) (fheAcl s ++ [g]).

(** ** The presence test

    [bytes(emailRegistry[emailId].sender).length] (lines 32, 59, 77 and 89).
    The [sender] field is an [address]; Solidity has no conversion from
    [address] to [bytes], so the source does not say what this length is.
    It is a parameter. *)

Class AddressBytes : Type := {
  sender_bytes_length : address -> N
}.

(** ** Contract functions *)

Section Functions.
Context `{AddressBytes} `{FHE}.

Definition processEmail (env : Env) (emailId : string)
    (extContent : externalEuint32) (contentProof : bytes) (metadata : Z)
    (s : Contract) : Result Contract :=
  require (sender_bytes_length (sender (registry_at s emailId)) =? 0)%N
          "Email already processed";;
  probe ← or_revert FromExternalReverted (fromExternal extContent contentProof);
  require (isInitialized probe) "Invalid encrypted content";;
  handle ← or_revert FromExternalReverted (fromExternal extContent contentProof);
  let s1 := registry_put emailId
              {| encryptedContent := handle;
                 publicMetadata := metadata;
                 sender := msg_sender env;
                 timestamp := block_timestamp env;
                 isSpam := false;
                 decryptedScore := 0;
                 isVerified := false |} s in
  let s2 := grant (AllowThis (encryptedContent (registry_at s1 emailId))) s1 in
  let s3 := grant (PubliclyDecryptable (encryptedContent (registry_at s2 emailId))) s2 in
  let s4 := push_id emailId s3 in
  Ok (emit (EmailProcessed emailId (msg_sender env)) s4).

Definition verifySpamStatus (emailId : string) (abiEncodedResult : bytes)
    (verificationProof : bytes) (s : Contract) : Result Contract :=
  require (0 <? sender_bytes_length (sender (registry_at s emailId)))%N
          "Email does not exist";;
  require (negb (isVerified (registry_at s emailId))) "Email already verified";;
  let cts := [toBytes32 (encryptedContent (registry_at s emailId))] in
  (if checkSignatures cts abiEncodedResult verificationProof
   then Ok tt else Reverted CheckSignaturesReverted);;
  decoded ← or_revert AbiDecodeReverted (Abi.decode_bool_uint32 abiEncodedResult);
  let spam := fst decoded in
  let score := snd decoded in
  let s1 := registry_update emailId (set_isSpam spam) s in
  let s2 := registry_update emailId (set_decryptedScore score) s1 in
  let s3 := registry_update emailId (set_isVerified true) s2 in
  Ok (emit (SpamVerification emailId spam score) s3).

Definition getEncryptedContent (emailId : string) (s : Contract) : Result euint32 :=
  require (0 <? sender_bytes_length (sender (registry_at s emailId)))%N
          "Email does not exist";;
  Ok (encryptedContent (registry_at s emailId)).

(** Returns [(publicMetadata, sender, timestamp, isSpam, decryptedScore,
    isVerified)]. *)
Definition getEmailData (emailId : string) (s : Contract)
    : Result (Z * address * Z * bool * Z * bool) :=
  require (0 <? sender_bytes_length (sender (registry_at s emailId)))%N
          "Email does not exist";;
  let data := registry_at s emailId in
  Ok (publicMetadata data, sender data, timestamp data,
      isSpam data, decryptedScore data, isVerified data).

Definition getAllEmailIds (s : Contract) : list string := emailIds s.

Definition serviceStatus : bool := true.

(** The two presence tests as the contract writes them: [length > 0]
    (lines 59, 77, 89) and [length == 0] (line 32). *)
Definition recorded (s : Contract) (emailId : string) : bool :=
  (0 <? sender_bytes_length (sender (registry_at s emailId)))%N.

Definition vacant (s : Contract) (emailId : string) : bool :=
  (sender_bytes_length (sender (registry_at s emailId)) =? 0)%N.

(** *** Transactions

    The two state-changing entry points, and the ledger reached by mining a
    sequence of them from the deployment state.  A reverted transaction
    leaves the state as it was. *)

Inductive Call : Type :=
| CallProcessEmail (env : Env) (emailId : string) (extContent : externalEuint32)
                   (contentProof : bytes) (metadata : Z)
| CallVerifySpamStatus (emailId : string) (abiEncodedResult : bytes)
                       (verificationProof : bytes).

Definition exec_call (c : Call) (s : Contract) : Result Contract :=
  match c with
  | CallProcessEmail env emailId ext proof metadata =>
      processEmail env emailId ext proof metadata s
  | CallVerifySpamStatus emailId abi proof =>
      verifySpamStatus emailId abi proof s
  end.

Definition apply_call (s : Contract) (c : Call) : Contract :=
  match exec_call c s with
  | Ok s' => s'
  | Reverted _ => s
  end.

Definition run (s : Contract) (calls : list Call) : Contract :=
  fold_left apply_call calls s.

Inductive reachable : Contract -> Prop :=
| reach_initial : reachable initial
| reach_call s c : reachable s -> reachable (apply_call s c).

Definition is_verify (c : Call) : bool :=
  match c with
  | CallVerifySpamStatus _ _ _ => true
  | CallProcessEmail _ _ _ _ _ => false
  end.

(** The ids of the [processEmail] calls of a trace that did not revert, in
    the order they were mined. *)
Fixpoint created_ids (s : Contract) (calls : list Call) : list string :=
  match calls with
  | [] => []
  | c :: rest =>
      match c, exec_call c s with
      | CallProcessEmail _ emailId _ _ _, Ok s' => emailId :: created_ids s' rest
      | _, _ => created_ids (apply_call s c) rest
      end
  end.

(** The invariant of reachable ledgers: a verified record passes the
    presence test, and an unverified record still holds the values written
    at creation in its disclosure fields. *)
Definition record_inv (d : EmailData) : Prop :=
  (isVerified d = true -> (0 <? sender_bytes_length (sender d))%N = true) /\
  (isVerified d = false -> isSpam d = false /\ decryptedScore d = 0).

End Functions.

(** The fields of a record that are written at creation only. *)
Definition creation_fields (d : EmailData) : euint32 * Z * address * Z :=
  (encryptedContent d, publicMetadata d, sender d, timestamp d).

(** The fields of a record that a disclosure writes. *)
Definition disclosure_fields (d : EmailData) : bool * Z * bool :=
  (isSpam d, decryptedScore d, isVerified d).

(** The id a call is about. *)
Definition call_id (c : Call) : string :=
  match c with
  | CallProcessEmail _ emailId _ _ _ => emailId
  | CallVerifySpamStatus emailId _ _ => emailId
  end.

(** The ids of the [EmailProcessed] events of a log, in order. *)
Definition processed_ids (log : list Event) : list string :=
  omap (fun e => match e with
                 | EmailProcessed emailId _ => Some emailId
                 | SpamVerification _ _ _ => None
                 end) log.

(** The ids of the [SpamVerification] events of a log, in order. *)
Definition verified_ids (log : list Event) : list string :=
  omap (fun e => match e with
                 | SpamVerification emailId _ _ => Some emailId
                 | EmailProcessed _ _ => None
                 end) log.

(** ** Reference back ends

    Transparent stand-ins for the two parameters, used to run the contract
    on concrete inputs.

    [refFHE]: an input proof is accepted when it is not empty, and the
    signature over a handle list and a payload is the concatenation of the
    handles' 32-byte encodings and the payload.

    [refBytes] is the presence test the [require] messages describe: empty
    for the zero address, which an unwritten slot holds, and 20 bytes for
    any other address.  [fixedBytes n] gives every address the same
    length [n], as the bytes of a fixed-size value have. *)

Definition ref_sign (cts : list bytes32) (payload : bytes) : bytes :=
  flat_map (Abi.Z_to_be 32) cts ++ payload.

Definition refFHE : FHE := {|
  fromExternal := fun ext proof => if decide (proof = []) then None else Some ext;
  isInitialized := fun h => negb (h =? 0);
  toBytes32 := fun h => h;
  checkSignatures := fun cts payload proof => bool_decide (proof = ref_sign cts payload)
|}.

Definition refBytes : AddressBytes := {|
  sender_bytes_length := fun a => if a =? 0 then 0%N else 20%N
|}.

Definition fixedBytes (n : N) : AddressBytes := {|
  sender_bytes_length := fun _ => n
|}.

(** ** The client ([App.tsx])

    The workflows reach the ledger through a contract object and the
    decryption service through the [verifyDecryption] hook.  A rejected
    promise is [Thrown message], with [message] the text of [e.message]
    (the empty text when the error carries none).  The timers that hide the
    status banner are left out. *)

Module Frontend.

Inductive Attempt (A : Type) : Type :=
| Resolved (a : A)
| Thrown (message : string).
Arguments Resolved {A} a.
Arguments Thrown {A} message.

(** A JavaScript number as [Number(...)] yields it here: an integer or
    [NaN]. *)
Inductive JsNumber : Type :=
| Num (z : Z)
| NaN.

Inductive StatusKind : Type := Pending | Success | Error.

Record TransactionStatus : Type := mkStatus {
  visible : bool;
  status : StatusKind;
  message : string
}.

(** What the decryption service returns for a list of handles. *)
Record DecryptionResult : Type := mkDecryptionResult {
  clearValues : list (bytes32 * Z);
  abiEncodedClearValues : bytes;
  decryptionProof : bytes
}.

Definition Relayer : Type := list bytes32 -> Attempt DecryptionResult.

(** [haystack.includes(needle)]. *)
Definition js_includes (needle haystack : string) : bool :=
  bool_decide (is_Some (String.index 0 needle haystack)).

(** [x || 0] on an integer [x]. *)
Definition number_or_zero (x : Z) : Z := if x =? 0 then 0 else x.

(** Modelled from the spec: the [verifyDecryption] hook of the SDK
    ([useDecrypt]) is not among the sources.  It is the two-phase protocol
    of the disclosure workflow: the external decryption service computes
    the proof bundle for the handles, then the bundle is handed to the
    caller's continuation, which submits it; a failure of either phase
    fails the call. *)
Definition useDecrypt_verifyDecryption {Chain : Type} (relayer : Relayer)
    (handles : list bytes32)
    (callback : bytes -> bytes -> Chain -> Attempt Chain)
    (chain : Chain) : Attempt (DecryptionResult * Chain) :=
  match relayer handles with
  | Thrown m => Thrown m
  | Resolved result =>
      match callback (abiEncodedClearValues result) (decryptionProof result) chain with
      | Thrown m => Thrown m
      | Resolved chain' => Resolved (result, chain')
      end
  end.

End Frontend.

(** ** The dashboard ([App.tsx])

    The list of rows and how it is loaded, filtered and analysed, and the
    disclosure workflow.  The integers a contract call resolves to are
    exact; [Number(...)] of such an integer, a double, is the parameter
    [Number].  An optional field that is [undefined] is [None]. *)

Module Dashboard.

(** [interface EmailData]. *)
Record EmailData : Type := mkEmail {
  id : string;
  subject : string;
  sender : string;
  encryptedSpamScore : string;
  timestamp : Z;
  creator : string;
  publicValue1 : Z;
  publicValue2 : Z;
  isVerified : option bool;
  decryptedValue : option Z
}.

(** The fields the workflows read from what [getBusinessData] resolves
    to. *)
Record BusinessRecord : Type := mkBusiness {
  b_name : string;
  b_description : string;
  b_timestamp : Z;
  b_creator : string;
  b_publicValue1 : Z;
  b_publicValue2 : Z;
  b_isVerified : bool;
  b_decryptedValue : Z
}.

(** The contract methods [loadData] and [decryptData] call, on the object
    [getContractReadOnly()] or [getContractWithSigner()] returns.  The
    object and its ABI are not among the sources; the workflows are
    modelled for any such object. *)
Record ContractHandle (Chain : Type) : Type := mkHandle {
  getAllBusinessIds : Chain -> Frontend.Attempt (list string);
  getBusinessData : string -> Chain -> Frontend.Attempt BusinessRecord;
  getEncryptedValue : string -> Chain -> Frontend.Attempt bytes32;
  verifyDecryption : string -> bytes -> bytes -> Chain -> Frontend.Attempt Chain
}.
Arguments getAllBusinessIds {Chain} _ _.
Arguments getBusinessData {Chain} _ _ _.
Arguments getEncryptedValue {Chain} _ _ _.
Arguments verifyDecryption {Chain} _ _ _ _ _.

(** The state of the component that the two workflows read and write. *)
Record AppState : Type := mkApp {
  isConnected : bool;
  account : option address;
  emails : list EmailData;
  isRefreshing : bool;
  transactionStatus : Frontend.TransactionStatus;
  userHistory : list string;
  isDecrypting : bool
}.

Definition setEmails (rows : list EmailData) (st : AppState) : AppState :=
  mkApp (isConnected st) (account st) rows (isRefreshing st)
        (transactionStatus st) (userHistory st) (isDecrypting st).

Definition setIsRefreshing (b : bool) (st : AppState) : AppState :=
  mkApp (isConnected st) (account st) (emails st) b
        (transactionStatus st) (userHistory st) (isDecrypting st).

Definition setTransactionStatus (ts : Frontend.TransactionStatus) (st : AppState)
    : AppState :=
  mkApp (isConnected st) (account st) (emails st) (isRefreshing st)
        ts (userHistory st) (isDecrypting st).

(** [setUserHistory(prev => [...prev, entry])]. *)
Definition setUserHistory (entry : string) (st : AppState) : AppState :=
  mkApp (isConnected st) (account st) (emails st) (isRefreshing st)
        (transactionStatus st) (userHistory st ++ [entry]) (isDecrypting st).

Definition setIsDecrypting (b : bool) (st : AppState) : AppState :=
  mkApp (isConnected st) (account st) (emails st) (isRefreshing st)
        (transactionStatus st) (userHistory st) b.

Section Workflows.
Context {Chain : Type}.
(** [Number(x)] for an integer [x] a contract call or the decryption
    service resolved to. *)
Variable Number : Z -> Z.
(** [getContractReadOnly()] and [getContractWithSigner()]; [None] is
    [null]. *)
Variables contractRead contractWrite : option (ContractHandle Chain).

(** The row pushed for an id whose record was read. *)
Definition toEmail (businessId : string) (businessData : BusinessRecord) : EmailData :=
  {| id := businessId;
     subject := b_name businessData;
     sender := b_description businessData;
     encryptedSpamScore := businessId;
     timestamp := Number (b_timestamp businessData);
     creator := b_creator businessData;
     publicValue1 := Frontend.number_or_zero (Number (b_publicValue1 businessData));
     publicValue2 := Frontend.number_or_zero (Number (b_publicValue2 businessData));
     isVerified := Some (b_isVerified businessData);
     decryptedValue :=
       Some (Frontend.number_or_zero (Number (b_decryptedValue businessData))) |}.

(** The [for] loop of [loadData]: a read that throws is logged and
    skipped.  [chainAt k] is the ledger as the k-th read of the refresh sees
    it: each [await] may see a later ledger than the one before. *)
Fixpoint loadRows (contract : ContractHandle Chain) (chainAt : nat -> Chain)
    (k : nat) (businessIds : list string) : list EmailData :=
  match businessIds with
  | [] => []
  | businessId :: rest =>
      match getBusinessData contract businessId (chainAt k) with
      | Frontend.Resolved businessData =>
          toEmail businessId businessData :: loadRows contract chainAt (S k) rest
      | Frontend.Thrown _ => loadRows contract chainAt (S k) rest
      end
  end.

Definition loadData (chainAt : nat -> Chain) (st : AppState) : AppState :=
  if negb (isConnected st) then st
  else
    let st1 := setIsRefreshing true st in
    match contractRead with
    | None => setIsRefreshing false st1
    | Some contract =>
        match getAllBusinessIds contract (chainAt 0%nat) with
        | Frontend.Resolved businessIds =>
            setIsRefreshing false
              (setEmails (loadRows contract chainAt 1 businessIds) st1)
        | Frontend.Thrown _ =>
            setIsRefreshing false
              (setTransactionStatus
                 (Frontend.mkStatus true Frontend.Error "Failed to load data") st1)
        end
    end.

(** *** [decryptData] *)

Variable relayer : Frontend.Relayer.
(** What other parties get mined while the workflow awaits the decryption
    service. *)
Variable meanwhile : Chain -> Chain.
(** The ledger as the reads of the refresh that ends the workflow see it. *)
Variable reloadAt : nat -> Chain.

(** [Number(clearValues[handle])]: [NaN] when the handle has no entry. *)
Definition number_of_clear (handle : bytes32) (values : list (bytes32 * Z))
    : Frontend.JsNumber :=
  match list_find (fun kv => fst kv = handle) values with
  | Some (_, kv) => Frontend.Num (Number (snd kv))
  | None => Frontend.NaN
  end.

(** The body of the [try] block: its outcome, and the ledger it leaves. *)
Definition decryptData_try (businessId : string) (st : AppState) (chain : Chain)
    : Frontend.Attempt (option Frontend.JsNumber * AppState) * Chain :=
  match contractRead with
  | None => (Frontend.Resolved (None, st), chain)
  | Some cr =>
    match getBusinessData cr businessId chain with
    | Frontend.Thrown m => (Frontend.Thrown m, chain)
    | Frontend.Resolved businessData =>
      if b_isVerified businessData then
        let storedValue :=
          Frontend.number_or_zero (Number (b_decryptedValue businessData)) in
        (Frontend.Resolved
           (Some (Frontend.Num storedValue),
            setTransactionStatus
              (Frontend.mkStatus true Frontend.Success
                                 "Data already verified on-chain") st),
         chain)
      else
        match contractWrite with
        | None => (Frontend.Resolved (None, st), chain)
        | Some cw =>
          match getEncryptedValue cr businessId chain with
          | Frontend.Thrown m => (Frontend.Thrown m, chain)
          | Frontend.Resolved encryptedValueHandle =>
            let chain1 := meanwhile chain in
            match Frontend.useDecrypt_verifyDecryption relayer [encryptedValueHandle]
                    (verifyDecryption cw businessId) chain1 with
            | Frontend.Thrown m => (Frontend.Thrown m, chain1)
            | Frontend.Resolved (result, chain2) =>
              let st1 := setTransactionStatus
                           (Frontend.mkStatus true Frontend.Pending
                                              "Verifying decryption on-chain...") st in
              let clearValue :=
                number_of_clear encryptedValueHandle (Frontend.clearValues result) in
              let st2 := setUserHistory ("Decrypted email: " +:+ businessId) st1 in
              let st3 := loadData reloadAt st2 in
              let st4 := setTransactionStatus
                           (Frontend.mkStatus true Frontend.Success
                              "Data decrypted and verified successfully!") st3 in
              (Frontend.Resolved (Some clearValue, st4), chain2)
            end
          end
        end
    end
  end.

(** Returns the value the promise resolves to ([None] is [null]), the
    state of the component and the ledger. *)
Definition decryptData (businessId : string) (st : AppState) (chain : Chain)
    : option Frontend.JsNumber * AppState * Chain :=
  if negb (isConnected st) || negb (bool_decide (is_Some (account st))) then
    (None,
     setTransactionStatus
       (Frontend.mkStatus true Frontend.Error "Please connect wallet first") st,
     chain)
  else
    let st0 := setIsDecrypting true st in
    match decryptData_try businessId st0 chain with
    | (Frontend.Resolved (value, st'), chain') =>
        (value, setIsDecrypting false st', chain')
    | (Frontend.Thrown m, chain') =>
      if Frontend.js_includes "Data already verified" m then
        (None,
         setIsDecrypting false
           (loadData reloadAt
              (setTransactionStatus
                 (Frontend.mkStatus true Frontend.Success
                                    "Data is already verified on-chain") st0)),
         chain')
      else
        (None,
         setIsDecrypting false
           (setTransactionStatus
              (Frontend.mkStatus true Frontend.Error
                 ("Decryption failed: "
                  +:+ (if decide (m = "") then "Unknown error" else m)))
              st0),
         chain')
    end.

End Workflows.

(** JavaScript truthiness of the values met here. *)
Definition truthy_flag (b : option bool) : bool :=
  match b with Some true => true | _ => false end.

Definition truthy_number (n : option Frontend.JsNumber) : option Z :=
  match n with
  | Some (Frontend.Num z) => if z =? 0 then None else Some z
  | _ => None
  end.

(** *** [analyzeSpam]

    [spamScore], [spamProbability] and [trustScore] are integer
    expressions.  The other three fields of the analysis multiply the score
    by 1.2, 0.3 and 0.8 in floating point and are not embedded. *)

Definition spamScore (email : EmailData) (decryptedScore : option Frontend.JsNumber) : Z :=
  if truthy_flag (isVerified email) then
    match decryptedValue email with
    | Some v => Frontend.number_or_zero v
    | None => 0
    end
  else
    match truthy_number decryptedScore with
    | Some v => v
    | None => if publicValue1 email =? 0 then 50 else publicValue1 email
    end.

Definition spamProbability (email : EmailData)
    (decryptedScore : option Frontend.JsNumber) : Z :=
  Z.min 100 (Z.max 0 (spamScore email decryptedScore)).

Definition trustScore (email : EmailData)
    (decryptedScore : option Frontend.JsNumber) : Z :=
  Z.max 5 (100 - spamProbability email decryptedScore).

(** *** [filteredEmails]

    [String.prototype.toLowerCase] is a parameter. *)

Section Filter.
Variable toLowerCase : string -> string.

Definition matchesRow (searchTerm : string) (filterVerified : bool)
    (email : EmailData) : bool :=
  let matchesSearch :=
    Frontend.js_includes (toLowerCase searchTerm) (toLowerCase (subject email))
    || Frontend.js_includes (toLowerCase searchTerm) (toLowerCase (sender email)) in
  let matchesFilter := negb filterVerified || truthy_flag (isVerified email) in
  matchesSearch && matchesFilter.

Definition filteredEmails (emails : list EmailData) (searchTerm : string)
    (filterVerified : bool) : list EmailData :=
  filter (fun email => matchesRow searchTerm filterVerified email = true) emails.

End Filter.

End Dashboard.

(** ** The submission form ([ModalCreateEmail]) *)

Module CreateForm.

Record FormData : Type := mkForm {
  subject : string;
  sender : string;
  spamScore : string
}.

(** [\d]: an ASCII digit. *)
Definition is_digit (c : Ascii.ascii) : bool :=
  (48 <=? Ascii.nat_of_ascii c)%nat && (Ascii.nat_of_ascii c <=? 57)%nat.

(** [value.replace(/[^\d]/g, '')]. *)
Fixpoint digits_only (value : string) : string :=
  match value with
  | EmptyString => EmptyString
  | String c rest =>
      if is_digit c then String c (digits_only rest) else digits_only rest
  end.

(** [handleChange] for the input named [name].  The form has the three
    inputs below; for another name the object would gain a property that
    nothing reads. *)
Definition handleChange (name value : string) (emailData : FormData) : FormData :=
  if decide (name = "spamScore") then
    mkForm (subject emailData) (sender emailData) (digits_only value)
  else if decide (name = "subject") then
    mkForm value (sender emailData) (spamScore emailData)
  else if decide (name = "sender") then
    mkForm (subject emailData) value (spamScore emailData)
  else emailData.

(** [!s] on a string. *)
Definition is_empty (s : string) : bool :=
  match s with EmptyString => true | String _ _ => false end.

(** The [disabled] attribute of the submit button. *)
Definition submitDisabled (creating isEncrypting : bool) (emailData : FormData) : bool :=
  creating || isEncrypting || is_empty (subject emailData)
  || is_empty (sender emailData) || is_empty (spamScore emailData).

End CreateForm.

(** ** A concrete ledger

    One record, ["email-1"], submitted by account 4096 with handle 77, and
    the two disclosure payloads [(true, 73)] and [(false, 73)] signed for
    that handle, run under the reference back ends. *)

Module Scenario.

Definition alice : Env := mkEnv 4096 1700000000.
Definition bob : Env := mkEnv 8192 1700000600.

Definition submit1 : Call := CallProcessEmail alice "email-1" 77 [Byte.x01] 5.

Definition payload_spam : bytes := Abi.encode_bool_uint32 true 73.
Definition payload_ham : bytes := Abi.encode_bool_uint32 false 73.

Definition disclose_spam : Call :=
  CallVerifySpamStatus "email-1" payload_spam (ref_sign [77] payload_spam).

Definition disclose_ham : Call :=
  CallVerifySpamStatus "email-1" payload_ham (ref_sign [77] payload_ham).

Definition ledger1 : Contract := @run refBytes refFHE initial [submit1].
Definition ledger2 : Contract := @run refBytes refFHE ledger1 [disclose_spam].
Definition ledger2_ham : Contract := @run refBytes refFHE ledger1 [disclose_ham].

Definition submit2 : Call := CallProcessEmail bob "email-2" 78 [Byte.x01] 40.
Definition submit3 : Call := CallProcessEmail alice "email-3" 79 [Byte.x01] 12.

(** Three submissions with a disclosure in between, a duplicate submission
    and a disclosure after them. *)
Definition busy_trace : list Call :=
  [submit1; disclose_spam; submit2; submit1; submit3;
   CallVerifySpamStatus "email-3" payload_ham (ref_sign [79] payload_ham)].

Definition busy_ledger : Contract := @run refBytes refFHE initial busy_trace.


End Scenario.

(** ** Sample inputs for the client *)

Module Samples.

(** A contract object of the shape the workflows call, over a ledger kept
    as a list of records by id.  A submission for a verified record is
    rejected with the message [alreadyVerified]; an accepted one stores the
    first word of the payload as the decrypted value. *)
Definition Ledger : Type := list (string * Dashboard.BusinessRecord).

Fixpoint find_record (businessId : string) (ledger : Ledger)
    : option Dashboard.BusinessRecord :=
  match ledger with
  | [] => None
  | (k, b) :: rest => if decide (k = businessId) then Some b else find_record businessId rest
  end.

Definition mark_verified (value : Z) (b : Dashboard.BusinessRecord)
    : Dashboard.BusinessRecord :=
  Dashboard.mkBusiness (Dashboard.b_name b) (Dashboard.b_description b)
    (Dashboard.b_timestamp b) (Dashboard.b_creator b) (Dashboard.b_publicValue1 b)
    (Dashboard.b_publicValue2 b) true value.

Fixpoint store_verified (businessId : string) (value : Z) (ledger : Ledger) : Ledger :=
  match ledger with
  | [] => []
  | (k, b) :: rest =>
      if decide (k = businessId) then (k, mark_verified value b) :: rest
      else (k, b) :: store_verified businessId value rest
  end.

Definition sampleHandle (alreadyVerified : string) : Dashboard.ContractHandle Ledger := {|
  Dashboard.getAllBusinessIds := fun ledger => Frontend.Resolved (ledger.*1);
  Dashboard.getBusinessData := fun businessId ledger =>
    match find_record businessId ledger with
    | Some b => Frontend.Resolved b
    | None => Frontend.Thrown "no such record"
    end;
  Dashboard.getEncryptedValue := fun businessId ledger =>
    match find_record businessId ledger with
    | Some _ => Frontend.Resolved 77
    | None => Frontend.Thrown "no such record"
    end;
  Dashboard.verifyDecryption := fun businessId payload _ ledger =>
    match find_record businessId ledger with
    | Some b =>
        if Dashboard.b_isVerified b then Frontend.Thrown alreadyVerified
        else Frontend.Resolved
               (store_verified businessId (Abi.be_to_Z (take 32 payload)) ledger)
    | None => Frontend.Thrown "no such record"
    end
|}.

Definition record1 : Dashboard.BusinessRecord :=
  Dashboard.mkBusiness "Hi" "carol@example.org" 1700000000 "0x1000" 10 0 false 0.

Definition sampleLedger : Ledger := [("email-1", record1)].

(** The ledger after another party disclosed 73 for ["email-1"]. *)
Definition disclosedLedger : Ledger := store_verified "email-1" 73 sampleLedger.

(** A decryption service that answers 73 for handle 77. *)
Definition sampleRelayer : Frontend.Relayer :=
  fun _ => Frontend.Resolved
             (Frontend.mkDecryptionResult [(77, 73)] (Abi.Z_to_be 32 73) []).

(** [Number] on integers small enough to be exact. *)
Definition exactNumber (z : Z) : Z := z.

Definition app0 : Dashboard.AppState :=
  Dashboard.mkApp true (Some 4096) [] false
                  (Frontend.mkStatus false Frontend.Pending "") [] false.

(** A listing of three ids of which the second cannot be read. *)
Definition listing : Dashboard.ContractHandle unit := {|
  Dashboard.getAllBusinessIds := fun _ =>
    Frontend.Resolved ["email-1"; "email-2"; "email-3"];
  Dashboard.getBusinessData := fun businessId _ =>
    if decide (businessId = "email-2") then Frontend.Thrown "execution reverted"
    else Frontend.Resolved record1;
  Dashboard.getEncryptedValue := fun _ _ => Frontend.Thrown "not used";
  Dashboard.verifyDecryption := fun _ _ _ _ => Frontend.Thrown "not used"
|}.

(** A contract object whose record read throws "Data already verified"
    and whose id listing cannot be read. *)
Definition offline : Dashboard.ContractHandle unit := {|
  Dashboard.getAllBusinessIds := fun _ => Frontend.Thrown "network error";
  Dashboard.getBusinessData := fun _ _ => Frontend.Thrown "Data already verified";
  Dashboard.getEncryptedValue := fun _ _ => Frontend.Thrown "not used";
  Dashboard.verifyDecryption := fun _ _ _ _ => Frontend.Thrown "not used"
|}.

Definition row (businessId : string) (verified : bool) (value score : Z)
    : Dashboard.EmailData :=
  Dashboard.mkEmail businessId "Hi" "carol@example.org" businessId 1700000000
                    "0x1000" score 0 (Some verified) (Some value).

Definition rows : list Dashboard.EmailData :=
  [row "email-1" true 73 10; row "email-2" false 0 0; row "email-3" true 5 99].

(** Lower case of the letters A to Z, other characters unchanged. *)
Definition lower_ascii (c : Ascii.ascii) : Ascii.ascii :=
  let n := Ascii.nat_of_ascii c in
  if (65 <=? n)%nat && (n <=? 90)%nat then Ascii.ascii_of_nat (n + 32) else c.

Fixpoint lower (s : string) : string :=
  match s with
  | EmptyString => EmptyString
  | String c rest => String (lower_ascii c) (lower rest)
  end.

Definition form0 : CreateForm.FormData := CreateForm.mkForm "Hi" "carol@example.org" "".

(** The encoding of the single word 73: 32 bytes. *)
Definition one_word : bytes := Abi.Z_to_be 32 73.

End Samples.

(** * Properties *)

(** ** Storage reads and writes *)

Lemma registry_at_put_eq (s : Contract) (emailId : string) (d : EmailData) :
  registry_at (registry_put emailId d s) emailId = d.
Proof. unfold registry_at, registry_put; simpl. by rewrite lookup_insert_eq. Qed.

Lemma registry_at_put_ne (s : Contract) (emailId other : string) (d : EmailData) :
  other ≠ emailId ->
  registry_at (registry_put emailId d s) other = registry_at s other.
Proof.
  intros Hne. unfold registry_at, registry_put; simpl.
  by rewrite lookup_insert_ne.
Qed.

Lemma registry_at_emit (s : Contract) (e : Event) (emailId : string) :
  registry_at (emit e s) emailId = registry_at s emailId.
Proof. reflexivity. Qed.

Lemma registry_at_other (s s' : Contract) (emailId other : string) :
  emailRegistry s' !! other = emailRegistry s !! other ->
  registry_at s' other = registry_at s other.
Proof. unfold registry_at. by intros ->. Qed.

Lemma be_to_Z_nonneg (bs : bytes) : forall acc,
  0 <= acc ->
  0 <= fold_left (fun a b => a * 256 + Z.of_N (Byte.to_N b)) bs acc.
Proof.
  induction bs as [| b bs IH]; intros acc Hacc; simpl; [done |].
  apply IH. pose proof (N2Z.is_nonneg (Byte.to_N b)). lia.
Qed.

Lemma Abi_word_nonneg (n : nat) (data : bytes) (w : Z) :
  Abi.word n data = Some w -> 0 <= w.
Proof.
  unfold Abi.word. case_decide; [| discriminate].
  intros [= <-]. by apply be_to_Z_nonneg.
Qed.

Lemma Abi_decode_range (data : bytes) (b : bool) (n : Z) :
  Abi.decode_bool_uint32 data = Some (b, n) -> 0 <= n < 2 ^ 32.
Proof.
  unfold Abi.decode_bool_uint32.
  destruct (Abi.word 0 data) as [w0 |]; [| discriminate]; cbn.
  destruct (Abi.word 1 data) as [w1 |] eqn:Hw1; [| discriminate]; cbn.
  destruct (w0 <? 2); [| discriminate]; cbn.
  destruct (Z.ltb_spec w1 (2 ^ 32)); [| discriminate].
  intros [= _ <-]. split; [by eapply Abi_word_nonneg | done].
Qed.

Lemma Frontend_number_or_zero (x : Z) : Frontend.number_or_zero x = x.
Proof. unfold Frontend.number_or_zero. by destruct (Z.eqb_spec x 0) as [-> |]. Qed.

Section Proofs.
Context `{AddressBytes} `{FHE}.

(** ** The two presence tests *)

Lemma recorded_not_vacant s emailId :
  recorded s emailId = true -> vacant s emailId = false.
Proof.
  unfold recorded, vacant. intros Hrec%N.ltb_lt. apply N.eqb_neq. lia.
Qed.

Lemma vacant_not_recorded s emailId :
  vacant s emailId = true -> recorded s emailId = false.
Proof.
  unfold recorded, vacant. intros Hvac%N.eqb_eq. apply N.ltb_ge. lia.
Qed.

Lemma recorded_same_sender s s' emailId :
  sender (registry_at s' emailId) = sender (registry_at s emailId) ->
  recorded s' emailId = recorded s emailId.
Proof. unfold recorded. by intros ->. Qed.

Lemma vacant_same_sender s s' emailId :
  sender (registry_at s' emailId) = sender (registry_at s emailId) ->
  vacant s' emailId = vacant s emailId.
Proof. unfold vacant. by intros ->. Qed.

(** ** What a successful call did *)

Lemma processEmail_ok_inv env emailId ext proof metadata s s' :
  processEmail env emailId ext proof metadata s = Ok s' ->
  vacant s emailId = true /\
  exists h,
    fromExternal ext proof = Some h /\ isInitialized h = true /\
    s' = emit (EmailProcessed emailId (msg_sender env))
           (push_id emailId
              (grant (PubliclyDecryptable h)
                 (grant (AllowThis h)
                    (registry_put emailId
                       (mkEmailData h metadata (msg_sender env) (block_timestamp env)
                                    false 0 false) s)))).
Proof.
  unfold processEmail, require. fold (vacant s emailId).
  destruct (vacant s emailId) eqn:Hfree; [| discriminate]. cbn.
  destruct (fromExternal ext proof) as [h |] eqn:Hext; [| discriminate]. cbn.
  destruct (isInitialized h) eqn:Hinit; [| discriminate]. cbn.
  intros [= <-]. split; [done |]. exists h. repeat split; try done.
  unfold registry_at, grant, registry_put; simpl.
  by rewrite !lookup_insert_eq.
Qed.

Lemma processEmail_taken env emailId ext proof metadata s :
  vacant s emailId = false ->
  processEmail env emailId ext proof metadata s
  = Reverted (RequireFailed "Email already processed").
Proof.
  intros Hs. unfold processEmail, require. fold (vacant s emailId).
  by rewrite Hs.
Qed.


Lemma verifySpamStatus_ok_inv emailId payload proof s s' :
  verifySpamStatus emailId payload proof s = Ok s' ->
  let d := registry_at s emailId in
  recorded s emailId = true /\ isVerified d = false /\
  checkSignatures [toBytes32 (encryptedContent d)] payload proof = true /\
  exists spam score,
    Abi.decode_bool_uint32 payload = Some (spam, score) /\
    s' = emit (SpamVerification emailId spam score)
           (registry_put emailId
              (mkEmailData (encryptedContent d) (publicMetadata d) (sender d)
                           (timestamp d) spam score true) s).
Proof.
  unfold verifySpamStatus, require. fold (recorded s emailId).
  destruct (recorded s emailId) eqn:Hrec; [| discriminate]. cbn.
  destruct (isVerified (registry_at s emailId)) eqn:Hver; [discriminate |]. cbn.
  destruct (checkSignatures _ payload proof) eqn:Hsig; [| discriminate]. cbn.
  destruct (Abi.decode_bool_uint32 payload) as [[spam score] |] eqn:Hdec;
    [| discriminate]. cbn.
  intros [= <-]. repeat split; try done. exists spam, score. split; [done |].
  unfold registry_update, registry_put, registry_at, emit; simpl.
  rewrite !lookup_insert_eq; simpl. by rewrite !insert_insert_eq.
Qed.

Lemma verifySpamStatus_missing emailId payload proof s :
  recorded s emailId = false ->
  verifySpamStatus emailId payload proof s
  = Reverted (RequireFailed "Email does not exist").
Proof.
  intros Hs. unfold verifySpamStatus, require. fold (recorded s emailId).
  by rewrite Hs.
Qed.

Lemma verifySpamStatus_verified emailId payload proof s :
  recorded s emailId = true ->
  isVerified (registry_at s emailId) = true ->
  verifySpamStatus emailId payload proof s
  = Reverted (RequireFailed "Email already verified").
Proof.
  intros Hs Hv.
  unfold verifySpamStatus, require. fold (recorded s emailId).
  by rewrite Hs, Hv.
Qed.

Lemma verifySpamStatus_bad_signature emailId payload proof s :
  recorded s emailId = true ->
  isVerified (registry_at s emailId) = false ->
  checkSignatures [toBytes32 (encryptedContent (registry_at s emailId))]
                  payload proof = false ->
  verifySpamStatus emailId payload proof s = Reverted CheckSignaturesReverted.
Proof.
  intros Hs Hv Hsig. unfold verifySpamStatus, require. fold (recorded s emailId).
  rewrite Hs, Hv; cbn. by rewrite Hsig.
Qed.

Lemma verifySpamStatus_accepts emailId payload proof spam score s :
  recorded s emailId = true ->
  isVerified (registry_at s emailId) = false ->
  checkSignatures [toBytes32 (encryptedContent (registry_at s emailId))]
                  payload proof = true ->
  Abi.decode_bool_uint32 payload = Some (spam, score) ->
  exists s', verifySpamStatus emailId payload proof s = Ok s'.
Proof.
  intros Hs Hv Hsig Hdec. unfold verifySpamStatus, require.
  fold (recorded s emailId). rewrite Hs, Hv; cbn. rewrite Hsig; cbn.
  rewrite Hdec; cbn. eauto.
Qed.

(** A verified record takes no disclosure, whatever the presence test
    says of it. *)
Lemma verifySpamStatus_never_twice emailId payload proof s :
  isVerified (registry_at s emailId) = true ->
  exists r, verifySpamStatus emailId payload proof s = Reverted r.
Proof.
  intros Hv. destruct (recorded s emailId) eqn:Hrec.
  - rewrite verifySpamStatus_verified by done. eauto.
  - rewrite verifySpamStatus_missing by done. eauto.
Qed.

(** ** The effect of each call on one record, the others and the id list *)

Lemma processEmail_effect env emailId ext proof metadata s s' :
  processEmail env emailId ext proof metadata s = Ok s' ->
  exists h,
    fromExternal ext proof = Some h /\
    registry_at s' emailId
    = mkEmailData h metadata (msg_sender env) (block_timestamp env) false 0 false /\
    (forall other, other ≠ emailId ->
       emailRegistry s' !! other = emailRegistry s !! other) /\
    emailIds s' = emailIds s ++ [emailId].
Proof.
  intros (_ & h & Hext & _ & ->)%processEmail_ok_inv. exists h.
  split; [done |]. split; [| split].
  - unfold registry_at; simpl. by rewrite lookup_insert_eq.
  - intros other Hne; simpl. by rewrite lookup_insert_ne.
  - reflexivity.
Qed.

Lemma verifySpamStatus_effect emailId payload proof s s' :
  verifySpamStatus emailId payload proof s = Ok s' ->
  exists spam score,
    Abi.decode_bool_uint32 payload = Some (spam, score) /\
    creation_fields (registry_at s' emailId) = creation_fields (registry_at s emailId) /\
    disclosure_fields (registry_at s' emailId) = (spam, score, true) /\
    (forall other, other ≠ emailId ->
       emailRegistry s' !! other = emailRegistry s !! other) /\
    emailIds s' = emailIds s /\ fheAcl s' = fheAcl s.
Proof.
  intros (_ & _ & _ & spam & score & Hdec & ->)%verifySpamStatus_ok_inv.
  exists spam, score. split; [done |].
  rewrite registry_at_emit, registry_at_put_eq.
  split; [done |]. split; [done |]. split; [| done].
  intros other Hne; simpl. by rewrite lookup_insert_ne.
Qed.

(** ** One transaction *)

Lemma apply_call_creation_fields s c emailId :
  vacant s emailId = false ->
  creation_fields (registry_at (apply_call s c) emailId)
  = creation_fields (registry_at s emailId).
Proof.
  intros Hs. unfold apply_call.
  destruct (exec_call c s) as [s' |] eqn:Hexec; [| done].
  destruct c as [env id ext proof metadata | id payload proof]; simpl in Hexec.
  - destruct (decide (emailId = id)) as [-> | Hne].
    + rewrite processEmail_taken in Hexec by done. discriminate.
    + apply processEmail_effect in Hexec as (h & _ & _ & Hother & _).
      by rewrite (registry_at_other s s' id emailId) by auto.
  - destruct (decide (emailId = id)) as [-> | Hne].
    + by apply verifySpamStatus_effect in Hexec as (? & ? & _ & -> & _).
    + apply verifySpamStatus_effect in Hexec as (? & ? & _ & _ & _ & Hother & _).
      by rewrite (registry_at_other s s' id emailId) by auto.
Qed.

Lemma apply_call_verified s c emailId :
  vacant s emailId = false ->
  isVerified (registry_at s emailId) = true ->
  registry_at (apply_call s c) emailId = registry_at s emailId.
Proof.
  intros Hs Hv. unfold apply_call.
  destruct (exec_call c s) as [s' |] eqn:Hexec; [| done].
  destruct c as [env id ext proof metadata | id payload proof]; simpl in Hexec.
  - destruct (decide (emailId = id)) as [-> | Hne].
    + rewrite processEmail_taken in Hexec by done. discriminate.
    + apply processEmail_effect in Hexec as (h & _ & _ & Hother & _).
      by rewrite (registry_at_other s s' id emailId) by auto.
  - destruct (decide (emailId = id)) as [-> | Hne].
    + destruct (verifySpamStatus_never_twice id payload proof s Hv) as [r Hr].
      congruence.
    + apply verifySpamStatus_effect in Hexec as (? & ? & _ & _ & _ & Hother & _).
      by rewrite (registry_at_other s s' id emailId) by auto.
Qed.

(** ** Sequences of transactions *)

Lemma run_app s calls calls' :
  run s (calls ++ calls') = run (run s calls) calls'.
Proof. apply fold_left_app. Qed.

Lemma run_creation_fields calls : forall s emailId,
  vacant s emailId = false ->
  creation_fields (registry_at (run s calls) emailId)
  = creation_fields (registry_at s emailId).
Proof.
  induction calls as [| c calls IH]; intros s emailId Hs; [done |].
  simpl. pose proof (apply_call_creation_fields s c emailId Hs) as Hstep.
  rewrite IH; [done |].
  rewrite (vacant_same_sender s); [done |].
  unfold creation_fields in Hstep. congruence.
Qed.

Lemma run_verified calls : forall s emailId,
  vacant s emailId = false ->
  isVerified (registry_at s emailId) = true ->
  registry_at (run s calls) emailId = registry_at s emailId.
Proof.
  induction calls as [| c calls IH]; intros s emailId Hs Hv; [done |].
  simpl. pose proof (apply_call_verified s c emailId Hs Hv) as Hstep.
  rewrite IH; [done | | congruence].
  rewrite (vacant_same_sender s); [done | congruence].
Qed.

Lemma reachable_run calls : forall s, reachable s -> reachable (run s calls).
Proof.
  induction calls as [| c calls IH]; intros s Hs; [done |].
  simpl. apply IH. by constructor.
Qed.

Lemma reachable_inv s : reachable s -> forall emailId, record_inv (registry_at s emailId).
Proof.
  induction 1 as [| s c Hreach IH]; intros emailId.
  - unfold registry_at, initial; simpl. rewrite lookup_empty; simpl.
    split; [discriminate | done].
  - unfold apply_call.
    destruct (exec_call c s) as [s' |] eqn:Hexec; [| apply IH].
    destruct c as [env id ext proof metadata | id payload proof]; simpl in Hexec.
    + apply processEmail_effect in Hexec as (h & _ & Hat & Hother & _).
      destruct (decide (emailId = id)) as [-> | Hne].
      * rewrite Hat. split; simpl; [discriminate | done].
      * rewrite (registry_at_other s s' id emailId) by auto. apply IH.
    + pose proof Hexec as (Hs & _)%verifySpamStatus_ok_inv.
      apply verifySpamStatus_effect in Hexec
        as (spam & score & _ & Hcre & Hdis & Hother & _).
      destruct (decide (emailId = id)) as [-> | Hne].
      * unfold creation_fields in Hcre. unfold disclosure_fields in Hdis.
        unfold recorded in Hs.
        split; [intros _; congruence | intros Hv; congruence].
      * rewrite (registry_at_other s s' id emailId) by auto. apply IH.
Qed.

Lemma reachable_verified_recorded s emailId :
  reachable s ->
  isVerified (registry_at s emailId) = true ->
  recorded s emailId = true.
Proof.
  intros Hreach Hv. destruct (reachable_inv s Hreach emailId) as [Hrec _].
  by apply Hrec.
Qed.

Lemma run_ids calls : forall s,
  emailIds (run s calls) = emailIds s ++ created_ids s calls.
Proof.
  induction calls as [| c calls IH]; intros s; simpl.
  - by rewrite app_nil_r.
  - rewrite IH. unfold apply_call.
    destruct c as [env id ext proof metadata | id payload proof]; simpl.
    + destruct (processEmail env id ext proof metadata s) as [s' |] eqn:Hexec;
        [| done].
      apply processEmail_effect in Hexec as (_ & _ & _ & _ & ->).
      by rewrite <- app_assoc.
    + destruct (verifySpamStatus id payload proof s) as [s' |] eqn:Hexec;
        [| done].
      by apply verifySpamStatus_effect in Hexec as (_ & _ & _ & _ & _ & _ & -> & _).
Qed.

Lemma created_ids_verify_only calls : forall s,
  forallb is_verify calls = true -> created_ids s calls = [].
Proof.
  induction calls as [| c calls IH]; intros s Hall; [done |].
  simpl in Hall. apply andb_prop in Hall as [Hc Hrest].
  destruct c as [| id payload proof]; [discriminate |]. simpl.
  unfold apply_call; simpl.
  destruct (verifySpamStatus id payload proof s); by apply IH.
Qed.

(** ** The claims *)

(** C1.  The verified flag goes from false to true at most once per
    record.  On a reachable ledger, a disclosure for a record whose
    [isVerified] is already true reverts with "Email already verified".
    A disclosure that succeeds found [isVerified] false and leaves
    [isSpam], [decryptedScore] and [isVerified] set together, to the decoded
    pair and true, after which every further disclosure for the record
    reverts; a disclosure that reverts leaves the ledger as it was; and a
    verified record is not changed by any later transactions. *)
Theorem verified_once_and_atomic s emailId payload proof :
  reachable s ->
  (isVerified (registry_at s emailId) = true ->
     verifySpamStatus emailId payload proof s
     = Reverted (RequireFailed "Email already verified")) /\
  (forall s', verifySpamStatus emailId payload proof s = Ok s' ->
     isVerified (registry_at s emailId) = false /\
     (exists spam score,
        Abi.decode_bool_uint32 payload = Some (spam, score) /\
        disclosure_fields (registry_at s' emailId) = (spam, score, true)) /\
     (forall calls payload' proof',
        verifySpamStatus emailId payload' proof' (run s' calls)
        = Reverted (RequireFailed "Email already verified"))) /\
  (forall r, verifySpamStatus emailId payload proof s = Reverted r ->
     apply_call s (CallVerifySpamStatus emailId payload proof) = s) /\
  (isVerified (registry_at s emailId) = true ->
     forall calls, registry_at (run s calls) emailId = registry_at s emailId).
Proof.
  intros Hreach.
  pose proof (reachable_verified_recorded s emailId Hreach) as Hrec.
  split; [| split; [| split]].
  - intros Hv. apply verifySpamStatus_verified; auto.
  - intros s' Hok.
    pose proof Hok as (Hs & Hv & _)%verifySpamStatus_ok_inv.
    apply verifySpamStatus_effect in Hok
      as (spam & score & Hdec & Hcre & Hdis & _).
    split; [done |]. split; [by exists spam, score |].
    intros calls payload' proof'.
    assert (recorded s' emailId = true) as Hs'.
    { rewrite (recorded_same_sender s); [done |].
      unfold creation_fields in Hcre. congruence. }
    assert (isVerified (registry_at s' emailId) = true) as Hv'
      by (unfold disclosure_fields in Hdis; congruence).
    pose proof (run_verified calls s' emailId (recorded_not_vacant _ _ Hs') Hv')
      as Hsame.
    apply verifySpamStatus_verified.
    + rewrite (recorded_same_sender s'); [done | by rewrite Hsame].
    + by rewrite Hsame.
  - intros r Hrev. unfold apply_call; simpl. by rewrite Hrev.
  - intros Hv calls. apply run_verified; [| done].
    apply recorded_not_vacant. auto.
Qed.


(** C4.  A disclosure whose signatures do not check against the stored
    handle reverts in [FHE.checkSignatures] (the invalid-proof failure),
    whatever its payload, and leaves the ledger as it was; a following
    disclosure whose signatures check and whose payload decodes still
    succeeds, and commits the decoded pair. *)
Theorem wrong_signature_then_valid s emailId payload badProof :
  recorded s emailId = true ->
  isVerified (registry_at s emailId) = false ->
  checkSignatures [toBytes32 (encryptedContent (registry_at s emailId))]
                  payload badProof = false ->
  verifySpamStatus emailId payload badProof s = Reverted CheckSignaturesReverted /\
  apply_call s (CallVerifySpamStatus emailId payload badProof) = s /\
  (forall payload' goodProof spam score,
     checkSignatures [toBytes32 (encryptedContent (registry_at s emailId))]
                     payload' goodProof = true ->
     Abi.decode_bool_uint32 payload' = Some (spam, score) ->
     exists s',
       verifySpamStatus emailId payload' goodProof
         (apply_call s (CallVerifySpamStatus emailId payload badProof)) = Ok s' /\
       creation_fields (registry_at s' emailId) = creation_fields (registry_at s emailId) /\
       disclosure_fields (registry_at s' emailId) = (spam, score, true)).
Proof.
  intros Hrec Hv Hbad.
  pose proof (verifySpamStatus_bad_signature emailId payload badProof s Hrec Hv Hbad)
    as Hrev.
  assert (apply_call s (CallVerifySpamStatus emailId payload badProof) = s) as Hsame
    by (unfold apply_call; simpl; by rewrite Hrev).
  split; [done |]. split; [done |].
  intros payload' goodProof spam score Hgood Hdec. rewrite Hsame.
  destruct (verifySpamStatus_accepts emailId payload' goodProof spam score s
              Hrec Hv Hgood Hdec) as [s' Hok].
  exists s'. split; [done |].
  apply verifySpamStatus_effect in Hok as (spam' & score' & Hdec' & Hcre & Hdis & _).
  split; [done |]. congruence.
Qed.


(** C9.  [getAllEmailIds] lists the ids in creation order: after any
    sequence of transactions it is the earlier list followed by the ids of
    the [processEmail] calls that succeeded, in the order they were mined.
    Nothing is ever removed, and a sequence of disclosures alone leaves the
    list as it was. *)
Theorem ids_in_creation_order s calls :
  getAllEmailIds (run s calls) = getAllEmailIds s ++ created_ids s calls /\
  getAllEmailIds s `prefix_of` getAllEmailIds (run s calls) /\
  (forallb is_verify calls = true -> getAllEmailIds (run s calls) = getAllEmailIds s).
Proof.
  unfold getAllEmailIds. split; [apply run_ids |]. split.
  - rewrite run_ids. by apply prefix_app_r.
  - intros Hall. by rewrite run_ids, created_ids_verify_only, app_nil_r.
Qed.

(** C10.  A successful [verifySpamStatus] writes only [isSpam],
    [decryptedScore] and [isVerified] of its record: [encryptedContent],
    [publicMetadata], [sender] and [timestamp] of that record, the
    [emailIds] sequence and every other entry of the registry are as
    before. *)
Theorem verify_frame s emailId payload proof s' :
  verifySpamStatus emailId payload proof s = Ok s' ->
  encryptedContent (registry_at s' emailId) = encryptedContent (registry_at s emailId) /\
  publicMetadata (registry_at s' emailId) = publicMetadata (registry_at s emailId) /\
  sender (registry_at s' emailId) = sender (registry_at s emailId) /\
  timestamp (registry_at s' emailId) = timestamp (registry_at s emailId) /\
  emailIds s' = emailIds s /\
  (forall other, other ≠ emailId ->
     emailRegistry s' !! other = emailRegistry s !! other).
Proof.
  intros (spam & score & _ & Hcre & _ & Hother & Hids & _)%verifySpamStatus_effect.
  unfold creation_fields in Hcre. injection Hcre as Hc Hm Hs Ht.
  repeat split; done.
Qed.

(** C2, as the contract has it.  The submitted bundle carries no handle
    list: [verifySpamStatus] builds the sequence itself, as exactly the one
    handle stored on the record, and has [FHE.checkSignatures] check the
    payload and proof against it.  A disclosure succeeds only if that check
    passes; a proof that does not check against the stored handle reverts
    in [FHE.checkSignatures], with the same failure as any other invalid
    proof; and these are all the ways a disclosure can revert. *)
Theorem signatures_bound_to_stored_handle s emailId payload proof :
  (forall s', verifySpamStatus emailId payload proof s = Ok s' ->
     checkSignatures [toBytes32 (encryptedContent (registry_at s emailId))]
                     payload proof = true) /\
  (recorded s emailId = true ->
   isVerified (registry_at s emailId) = false ->
   checkSignatures [toBytes32 (encryptedContent (registry_at s emailId))]
                   payload proof = false ->
   verifySpamStatus emailId payload proof s = Reverted CheckSignaturesReverted) /\
  (forall r, verifySpamStatus emailId payload proof s = Reverted r ->
     r = RequireFailed "Email does not exist" \/
     r = RequireFailed "Email already verified" \/
     r = CheckSignaturesReverted \/
     r = AbiDecodeReverted).
Proof.
  split; [| split].
  - by intros s' (_ & _ & Hsig & _)%verifySpamStatus_ok_inv.
  - apply verifySpamStatus_bad_signature.
  - intros r. unfold verifySpamStatus, require. fold (recorded s emailId).
    destruct (recorded s emailId); cbn; [| intros [= <-]; auto].
    destruct (isVerified _); cbn; [intros [= <-]; auto |].
    destruct (checkSignatures _ payload proof); cbn; [| intros [= <-]; auto].
    destruct (Abi.decode_bool_uint32 payload); cbn; [discriminate |].
    intros [= <-]; auto.
Qed.

(** C6, as the contract has it.  On a successful disclosure both
    [isSpam] and [decryptedScore] are decoded from the signature-checked
    payload, the flag from its first word and the score from its second;
    the flag is not computed from the score.  The score fits 32 bits, and
    no later transaction changes either value. *)
Theorem flag_decoded_from_payload s emailId payload proof s' :
  verifySpamStatus emailId payload proof s = Ok s' ->
  exists spam score,
    Abi.decode_bool_uint32 payload = Some (spam, score) /\
    checkSignatures [toBytes32 (encryptedContent (registry_at s emailId))]
                    payload proof = true /\
    0 <= score < 2 ^ 32 /\
    (forall calls,
       isSpam (registry_at (run s' calls) emailId) = spam /\
       decryptedScore (registry_at (run s' calls) emailId) = score).
Proof.
  intros Hok.
  pose proof Hok as (Hs & _ & Hsig & _)%verifySpamStatus_ok_inv.
  apply verifySpamStatus_effect in Hok as (spam & score & Hdec & Hcre & Hdis & _).
  exists spam, score. split; [done |]. split; [done |].
  split; [by apply (Abi_decode_range payload spam) |].
  intros calls.
  unfold creation_fields in Hcre. unfold disclosure_fields in Hdis.
  assert (recorded s' emailId = true) as Hs'
    by (rewrite (recorded_same_sender s); [done | congruence]).
  rewrite run_verified; [split; congruence | by apply recorded_not_vacant | congruence].
Qed.

(** C8, as the contract has it.  The disclosure fields are not optional:
    on a reachable ledger every record with [isVerified = false] holds
    [isSpam = false] and [decryptedScore = 0], the values written at
    creation, and [getEmailData] returns them as they are. *)
Theorem unverified_holds_creation_defaults s emailId :
  reachable s ->
  isVerified (registry_at s emailId) = false ->
  isSpam (registry_at s emailId) = false /\
  decryptedScore (registry_at s emailId) = 0 /\
  (recorded s emailId = true ->
   getEmailData emailId s
   = Ok (publicMetadata (registry_at s emailId), sender (registry_at s emailId),
         timestamp (registry_at s emailId), false, 0, false)).
Proof.
  intros Hreach Hv.
  destruct (reachable_inv s Hreach emailId) as [_ Hdef].
  destruct (Hdef Hv) as [Hspam Hscore]. split; [done |]. split; [done |].
  intros Hrec. unfold getEmailData, require. fold (recorded s emailId).
  rewrite Hrec; cbn. by rewrite Hspam, Hscore, Hv.
Qed.

End Proofs.

(** ** The second disclosure *)

Section Disclosure.
Context `{AddressBytes} `{FHE} {Chain : Type}.

(** C5, as the code has it.  Once a record is verified, the contract
    rejects every further disclosure for it with "Email already verified"
    and changes nothing.  The client workflow [decryptData], whatever
    contract object it is given: when its read of the record shows it
    verified, it submits nothing and resolves to [Number(decryptedValue) || 0]
    of that read (the number alone) under the banner "Data already verified
    on-chain", leaving the ledger as it is; when its read shows the record
    unverified and the decryption service or the submission of the proof
    then fails, it resolves to null, whatever the error, and writes nothing
    to the ledger. *)
Theorem second_disclosure (s : Contract) (emailId : string)
    (Number : Z -> Z) (contractRead : Dashboard.ContractHandle Chain)
    (relayer : Frontend.Relayer) (meanwhile : Chain -> Chain)
    (reloadAt : nat -> Chain) (businessId : string)
    (st : Dashboard.AppState) (chain : Chain) :
  reachable s ->
  isVerified (registry_at s emailId) = true ->
  Dashboard.isConnected st = true ->
  is_Some (Dashboard.account st) ->
  (forall payload proof,
     verifySpamStatus emailId payload proof s
     = Reverted (RequireFailed "Email already verified") /\
     apply_call s (CallVerifySpamStatus emailId payload proof) = s) /\
  (forall contractWrite businessData,
     Dashboard.getBusinessData contractRead businessId chain
     = Frontend.Resolved businessData ->
     Dashboard.b_isVerified businessData = true ->
     Dashboard.decryptData Number (Some contractRead) contractWrite relayer
                           meanwhile reloadAt businessId st chain
     = (Some (Frontend.Num
                (Frontend.number_or_zero
                   (Number (Dashboard.b_decryptedValue businessData)))),
        Dashboard.setIsDecrypting false
          (Dashboard.setTransactionStatus
             (Frontend.mkStatus true Frontend.Success "Data already verified on-chain")
             (Dashboard.setIsDecrypting true st)),
        chain)) /\
  (forall contractWrite businessData handle m,
     Dashboard.getBusinessData contractRead businessId chain
     = Frontend.Resolved businessData ->
     Dashboard.b_isVerified businessData = false ->
     Dashboard.getEncryptedValue contractRead businessId chain
     = Frontend.Resolved handle ->
     Frontend.useDecrypt_verifyDecryption relayer [handle]
       (Dashboard.verifyDecryption contractWrite businessId) (meanwhile chain)
     = Frontend.Thrown m ->
     let out := Dashboard.decryptData Number (Some contractRead) (Some contractWrite)
                  relayer meanwhile reloadAt businessId st chain in
     out.1.1 = None /\ out.2 = meanwhile chain).
Proof.
  intros Hreach Hv Hconn Hacc.
  pose proof (reachable_verified_recorded s emailId Hreach Hv) as Hrec.
  assert (forall payload proof,
            verifySpamStatus emailId payload proof s
            = Reverted (RequireFailed "Email already verified")) as Hrev
    by (intros; by apply verifySpamStatus_verified).
  split; [| split].
  - intros payload proof. split; [apply Hrev |].
    unfold apply_call; simpl. by rewrite Hrev.
  - intros contractWrite businessData Hread Hshown.
    unfold Dashboard.decryptData, Dashboard.decryptData_try. rewrite Hconn.
    rewrite (bool_decide_eq_true_2 _ Hacc); simpl.
    by rewrite Hread, Hshown.
  - intros contractWrite businessData handle m Hread Hshown Hhandle Hthrown out.
    subst out.
    unfold Dashboard.decryptData, Dashboard.decryptData_try. rewrite Hconn.
    rewrite (bool_decide_eq_true_2 _ Hacc); simpl.
    rewrite Hread, Hshown, Hhandle, Hthrown.
    by destruct (Frontend.js_includes "Data already verified" m).
Qed.

End Disclosure.

(** * Further properties of the contract *)

Section Ledger.
Context `{AddressBytes} `{FHE}.

(** ** The shape of one transaction *)

Lemma apply_call_cases s c :
  apply_call s c = s \/
  (exists env emailId ext proof metadata h,
     c = CallProcessEmail env emailId ext proof metadata /\
     vacant s emailId = true /\
     fromExternal ext proof = Some h /\ isInitialized h = true /\
     apply_call s c
     = emit (EmailProcessed emailId (msg_sender env))
         (push_id emailId
            (grant (PubliclyDecryptable h)
               (grant (AllowThis h)
                  (registry_put emailId
                     (mkEmailData h metadata (msg_sender env) (block_timestamp env)
                                  false 0 false) s))))) \/
  (exists emailId payload proof spam score,
     c = CallVerifySpamStatus emailId payload proof /\
     recorded s emailId = true /\
     isVerified (registry_at s emailId) = false /\
     Abi.decode_bool_uint32 payload = Some (spam, score) /\
     apply_call s c
     = emit (SpamVerification emailId spam score)
         (registry_put emailId
            (mkEmailData (encryptedContent (registry_at s emailId))
                         (publicMetadata (registry_at s emailId))
                         (sender (registry_at s emailId))
                         (timestamp (registry_at s emailId)) spam score true) s)).
Proof.
  unfold apply_call.
  destruct (exec_call c s) as [s' |] eqn:Hexec; [| by left].
  destruct c as [env id ext proof metadata | id payload proof]; simpl in Hexec.
  - right; left.
    apply processEmail_ok_inv in Hexec as (Hfree & h & Hext & Hinit & ->).
    by exists env, id, ext, proof, metadata, h.
  - right; right.
    apply verifySpamStatus_ok_inv in Hexec
      as (Hs & Hv & _ & spam & score & Hdec & ->).
    by exists id, payload, proof, spam, score.
Qed.

(** ** Handles of listed records, scores of all records *)

Lemma registry_at_created s e i g1 g2 emailId :
  registry_at (emit e (push_id i (grant g1 (grant g2 s)))) emailId
  = registry_at s emailId.
Proof. reflexivity. Qed.

Lemma reachable_listed_handles s :
  reachable s ->
  forall emailId,
    emailId ∈ emailIds s ->
    isInitialized (encryptedContent (registry_at s emailId)) = true /\
    AllowThis (encryptedContent (registry_at s emailId)) ∈ fheAcl s /\
    PubliclyDecryptable (encryptedContent (registry_at s emailId)) ∈ fheAcl s.
Proof.
  induction 1 as [| s c Hreach IH]; intros emailId Hin.
  - by apply elem_of_nil in Hin.
  - destruct (apply_call_cases s c)
      as [Hsame | [(env & id & ext & proof & metadata & h & _ & _ & _ & Hinit & Hpost)
                  | (id & payload & proof & spam & score & _ & _ & _ & _ & Hpost)]].
    + rewrite Hsame in Hin |- *. by apply IH.
    + rewrite Hpost in Hin |- *. rewrite registry_at_created.
      simpl in Hin. simpl fheAcl.
      destruct (decide (emailId = id)) as [-> | Hne].
      * rewrite registry_at_put_eq. simpl.
        split; [done |]. split.
        -- apply elem_of_app; left. apply elem_of_app; right.
           by apply list_elem_of_singleton.
        -- apply elem_of_app; right. by apply list_elem_of_singleton.
      * apply elem_of_app in Hin as [Hin | Hin%list_elem_of_singleton]; [| done].
        rewrite registry_at_put_ne by done.
        destruct (IH emailId Hin) as (Hi & Ha & Hp).
        split; [done |]. rewrite <- app_assoc.
        split; apply elem_of_app; by left.
    + rewrite Hpost in Hin |- *. rewrite registry_at_emit.
      simpl in Hin. simpl fheAcl.
      destruct (decide (emailId = id)) as [-> | Hne].
      * rewrite registry_at_put_eq. simpl. by apply IH.
      * rewrite registry_at_put_ne by done. by apply IH.
Qed.

Lemma reachable_scores s :
  reachable s ->
  forall emailId, 0 <= decryptedScore (registry_at s emailId) < 2 ^ 32.
Proof.
  induction 1 as [| s c Hreach IH]; intros emailId.
  - unfold registry_at, initial; simpl. rewrite lookup_empty; simpl. lia.
  - destruct (apply_call_cases s c)
      as [-> | [(env & id & ext & proof & metadata & h & _ & _ & _ & _ & ->)
               | (id & payload & proof & spam & score & _ & _ & _ & Hdec & ->)]].
    + apply IH.
    + rewrite registry_at_created.
      destruct (decide (emailId = id)) as [-> | Hne].
      * rewrite registry_at_put_eq. simpl. lia.
      * rewrite registry_at_put_ne by done. apply IH.
    + rewrite registry_at_emit.
      destruct (decide (emailId = id)) as [-> | Hne].
      * rewrite registry_at_put_eq. simpl.
        by apply (Abi_decode_range payload spam).
      * rewrite registry_at_put_ne by done. apply IH.
Qed.

Lemma getEncryptedContent_ok_inv emailId s h :
  getEncryptedContent emailId s = Ok h ->
  recorded s emailId = true /\ h = encryptedContent (registry_at s emailId).
Proof.
  unfold getEncryptedContent, require. fold (recorded s emailId).
  destruct (recorded s emailId) eqn:Hrec; [| discriminate].
  cbn. by intros [= <-].
Qed.

(** X1.  On a reachable ledger, for every id that [getAllEmailIds] lists,
    the handle that [getEncryptedContent] returns passed
    [FHE.isInitialized] when it was stored, and the access-control list
    holds both grants made for it at creation: [allowThis] and
    [makePubliclyDecryptable]. *)
Theorem stored_handle_initialized_and_granted s emailId h :
  reachable s ->
  emailId ∈ getAllEmailIds s ->
  getEncryptedContent emailId s = Ok h ->
  isInitialized h = true /\
  AllowThis h ∈ fheAcl s /\
  PubliclyDecryptable h ∈ fheAcl s.
Proof.
  intros Hreach Hin (_ & ->)%getEncryptedContent_ok_inv.
  by apply reachable_listed_handles.
Qed.

(** X2.  On a reachable ledger the [decryptedScore] of every record, as
    [getEmailData] returns it, is within the range of [uint32]. *)
Theorem stored_score_fits_uint32 s emailId metadata from time spam score verified :
  reachable s ->
  getEmailData emailId s = Ok (metadata, from, time, spam, score, verified) ->
  0 <= score < 2 ^ 32.
Proof.
  intros Hreach. unfold getEmailData, require. fold (recorded s emailId).
  destruct (recorded s emailId) eqn:Hrec; [| discriminate].
  cbn. intros [= _ _ _ _ <- _]. by apply reachable_scores.
Qed.

(** ** Frame of a transaction *)

(** X3.  A transaction touches no record but the one it names: after any
    call, reverted or not, every other entry of the registry is as before,
    and the id list is as before or has the id of the call appended. *)
Theorem call_touches_only_its_record s c :
  (forall other, other ≠ call_id c ->
     emailRegistry (apply_call s c) !! other = emailRegistry s !! other) /\
  (emailIds (apply_call s c) = emailIds s \/
   emailIds (apply_call s c) = emailIds s ++ [call_id c]).
Proof.
  destruct (apply_call_cases s c)
    as [-> | [(env & id & ext & proof & metadata & h & -> & _ & _ & _ & ->)
             | (id & payload & proof & spam & score & -> & _ & _ & _ & ->)]];
    simpl.
  - split; [done | by left].
  - split; [| by right]. intros other Hne. by rewrite lookup_insert_ne.
  - split; [| by left]. intros other Hne. by rewrite lookup_insert_ne.
Qed.

(** ** The event log *)

Lemma verified_ids_elem (log : list Event) (emailId : string) :
  emailId ∈ verified_ids log <->
  exists spam score, SpamVerification emailId spam score ∈ log.
Proof.
  unfold verified_ids. rewrite list_elem_of_omap. split.
  - intros ([id from | id spam score] & Hin & Heq); [discriminate |].
    injection Heq as ->. by exists spam, score.
  - intros (spam & score & Hin). by exists (SpamVerification emailId spam score).
Qed.

(** X4.  On a reachable ledger the [EmailProcessed] events, read in order,
    name exactly the ids that [getAllEmailIds] returns, in the same
    order. *)
Theorem processed_events_mirror_ids s :
  reachable s -> processed_ids (eventLog s) = getAllEmailIds s.
Proof.
  unfold getAllEmailIds, processed_ids.
  induction 1 as [| s c Hreach IH]; [done |].
  destruct (apply_call_cases s c)
    as [-> | [(env & id & ext & proof & metadata & h & _ & _ & _ & _ & ->)
             | (id & payload & proof & spam & score & _ & _ & _ & _ & ->)]];
    simpl; [done | |].
  - rewrite omap_app, IH. reflexivity.
  - rewrite omap_app, IH. simpl. by rewrite app_nil_r.
Qed.

Lemma reachable_events s :
  reachable s ->
  (forall emailId spam score,
     SpamVerification emailId spam score ∈ eventLog s <->
     disclosure_fields (registry_at s emailId) = (spam, score, true)) /\
  NoDup (verified_ids (eventLog s)).
Proof.
  induction 1 as [| s c Hreach [IHev IHnd]].
  - split; [| constructor]. intros emailId spam score.
    unfold registry_at, initial; simpl. rewrite lookup_empty; simpl.
    split; [by intros ?%elem_of_nil | discriminate].
  - assert (forall emailId, isVerified (registry_at s emailId) = false ->
              forall spam score, SpamVerification emailId spam score ∉ eventLog s)
      as Hnone.
    { intros emailId Hv spam score Hin%IHev.
      unfold disclosure_fields in Hin. congruence. }
    destruct (apply_call_cases s c)
      as [-> | [(env & id & ext & proof & metadata & h & _ & Hfree & _ & _ & ->)
               | (id & payload & proof & spam0 & score0 & _ & Hs & Hv & _ & ->)]].
    + done.
    + assert (isVerified (registry_at s id) = false) as Hv.
      { destruct (isVerified (registry_at s id)) eqn:Hver; [| done].
        pose proof (reachable_verified_recorded s id Hreach Hver) as Hrec.
        apply recorded_not_vacant in Hrec. congruence. }
      split.
      * intros emailId spam score. simpl.
        rewrite elem_of_app, list_elem_of_singleton.
        destruct (decide (emailId = id)) as [-> | Hne].
        -- unfold registry_at; simpl. rewrite lookup_insert_eq; simpl.
           split; [| discriminate].
           intros [Hin | ?]; [| discriminate]. by apply Hnone in Hin.
        -- unfold registry_at at 1; simpl. rewrite lookup_insert_ne by done.
           fold (registry_at s emailId). rewrite <- IHev.
           split; [intros [? | ?]; [done | discriminate] | by left].
      * simpl. unfold verified_ids. rewrite omap_app; simpl.
        by rewrite app_nil_r.
    + split.
      * intros emailId spam score. simpl.
        rewrite elem_of_app, list_elem_of_singleton.
        destruct (decide (emailId = id)) as [-> | Hne].
        -- unfold registry_at at 1; simpl. rewrite lookup_insert_eq; simpl.
           unfold disclosure_fields; simpl. split.
           ++ intros [Hin | Heq]; [by apply Hnone in Hin | congruence].
           ++ intros [= -> ->]. by right.
        -- unfold registry_at at 1; simpl. rewrite lookup_insert_ne by done.
           fold (registry_at s emailId). rewrite <- IHev.
           split; [intros [? | ?]; [done | congruence] | by left].
      * simpl. unfold verified_ids. rewrite omap_app; simpl.
        apply NoDup_app. split; [done |]. split; [| apply NoDup_singleton].
        intros x Hx ->%list_elem_of_singleton.
        apply verified_ids_elem in Hx as (spam & score & Hin).
        by apply Hnone in Hin.
Qed.

(** X5.  On a reachable ledger the log holds a [SpamVerification] event
    for an id with a flag and a score exactly when the record of that id is
    verified and stores that flag and that score; and no id has two such
    events. *)
Theorem verification_events_match_records s emailId spam score :
  reachable s ->
  (SpamVerification emailId spam score ∈ eventLog s <->
   isSpam (registry_at s emailId) = spam /\
   decryptedScore (registry_at s emailId) = score /\
   isVerified (registry_at s emailId) = true) /\
  NoDup (verified_ids (eventLog s)).
Proof.
  intros [Hev Hnd]%reachable_events. split; [| done].
  rewrite Hev. unfold disclosure_fields. split.
  - by intros [= -> -> ->].
  - by intros (-> & -> & ->).
Qed.

(** ** Records that pass the presence test *)

(** X20.  Records are never deleted.  Once the views answer for an id they
    answer for it after any further transactions, with the same handle,
    metadata, sender and timestamp; what can still change is the
    disclosure, and only while the record is unverified. *)
Theorem records_are_never_deleted s emailId calls :
  recorded s emailId = true ->
  recorded (run s calls) emailId = true /\
  creation_fields (registry_at (run s calls) emailId)
  = creation_fields (registry_at s emailId) /\
  getEncryptedContent emailId (run s calls) = getEncryptedContent emailId s /\
  (isVerified (registry_at s emailId) = true ->
   getEmailData emailId (run s calls) = getEmailData emailId s).
Proof.
  intros Hrec. pose proof (recorded_not_vacant s emailId Hrec) as Hs.
  pose proof (run_creation_fields calls s emailId Hs) as Hkeep.
  assert (recorded (run s calls) emailId = true) as Hrec'.
  { rewrite (recorded_same_sender s); [done |].
    unfold creation_fields in Hkeep. congruence. }
  split; [done |]. split; [done |]. split.
  - unfold getEncryptedContent, require.
    fold (recorded s emailId) (recorded (run s calls) emailId).
    rewrite Hrec, Hrec'; cbn. unfold creation_fields in Hkeep. congruence.
  - intros Hv. unfold getEmailData, require.
    fold (recorded s emailId) (recorded (run s calls) emailId).
    rewrite Hrec, Hrec'; cbn. by rewrite (run_verified calls s emailId Hs Hv).
Qed.

(** X6.  A record that passes the presence test cannot be created again:
    whatever is mined after, every [processEmail] for its id reverts with
    "Email already processed", whoever calls and whatever the encrypted
    input, and leaves the ledger as it was. *)
Theorem present_record_rejects_creation s emailId calls env ext proof metadata :
  recorded s emailId = true ->
  processEmail env emailId ext proof metadata (run s calls)
  = Reverted (RequireFailed "Email already processed") /\
  apply_call (run s calls) (CallProcessEmail env emailId ext proof metadata)
  = run s calls.
Proof.
  intros Hrec. pose proof (recorded_not_vacant s emailId Hrec) as Hs.
  pose proof (run_creation_fields calls s emailId Hs) as Hkeep.
  assert (vacant (run s calls) emailId = false) as Hs'.
  { rewrite (vacant_same_sender s); [done |].
    unfold creation_fields in Hkeep. congruence. }
  pose proof (processEmail_taken env emailId ext proof metadata _ Hs') as Hrev.
  split; [done |]. unfold apply_call; simpl. by rewrite Hrev.
Qed.

(** ** Payloads that do not decode *)

Lemma Abi_word_short (n : nat) (data : bytes) :
  (length data < 32 * (n + 1))%nat -> Abi.word n data = None.
Proof.
  intros Hlen. unfold Abi.word. case_decide as Hw; [| done].
  rewrite length_take, length_drop in Hw. lia.
Qed.

Lemma Abi_decode_short (data : bytes) :
  (length data < 64)%nat -> Abi.decode_bool_uint32 data = None.
Proof.
  intros Hlen. unfold Abi.decode_bool_uint32.
  rewrite (Abi_word_short 1 data) by (simpl; lia).
  by destruct (Abi.word 0 data).
Qed.

(** X9.  A payload that [abi.decode] rejects is never committed: the
    disclosure reverts whatever the proof, and when the record is there,
    unverified, and the signatures check, the revert is the one of
    [abi.decode], after the signature check and before any write. *)
Theorem undecodable_payload_reverts emailId payload proof s :
  Abi.decode_bool_uint32 payload = None ->
  (exists r, verifySpamStatus emailId payload proof s = Reverted r) /\
  (recorded s emailId = true ->
   isVerified (registry_at s emailId) = false ->
   checkSignatures [toBytes32 (encryptedContent (registry_at s emailId))]
                   payload proof = true ->
   verifySpamStatus emailId payload proof s = Reverted AbiDecodeReverted).
Proof.
  intros Hdec. split.
  - destruct (verifySpamStatus emailId payload proof s) as [s' |] eqn:Hok; [| eauto].
    apply verifySpamStatus_effect in Hok as (spam & score & Hsome & _). congruence.
  - intros Hrec Hv Hsig. unfold verifySpamStatus, require.
    fold (recorded s emailId). rewrite Hrec, Hv; cbn. rewrite Hsig; cbn.
    by rewrite Hdec.
Qed.

(** X10.  A payload of fewer than 64 bytes, such as the encoding of a
    single 32-byte word, never verifies a record: [verifySpamStatus] reverts
    for every id, proof and ledger. *)
Theorem short_payload_never_verifies emailId payload proof s :
  (length payload < 64)%nat ->
  exists r, verifySpamStatus emailId payload proof s = Reverted r.
Proof.
  intros Hlen%Abi_decode_short.
  destruct (verifySpamStatus emailId payload proof s) as [s' |] eqn:Hok; [| eauto].
  apply verifySpamStatus_effect in Hok as (spam & score & Hsome & _). congruence.
Qed.

End Ledger.

(** ** The decoder on encoded pairs *)

Lemma byte_of_Z_value (z : Z) : Z.of_N (Byte.to_N (Abi.byte_of_Z z)) = z mod 256.
Proof.
  unfold Abi.byte_of_Z.
  pose proof (Z.mod_pos_bound z 256 ltac:(lia)) as Hbound.
  destruct (Byte.of_N (Z.to_N (z mod 256))) as [b |] eqn:Hb; simpl.
  - apply Byte.to_of_N in Hb. rewrite Hb. lia.
  - apply Byte.of_N_None_iff in Hb. lia.
Qed.

Lemma be_to_Z_snoc (l : bytes) (b : Byte.byte) :
  Abi.be_to_Z (l ++ [b]) = Abi.be_to_Z l * 256 + Z.of_N (Byte.to_N b).
Proof. unfold Abi.be_to_Z. by rewrite fold_left_app. Qed.

Lemma length_Z_to_be (k : nat) : forall z, length (Abi.Z_to_be k z) = k.
Proof.
  induction k as [| k IH]; intros z; simpl; [done |].
  rewrite length_app, IH. simpl. lia.
Qed.

Lemma be_to_Z_to_be (k : nat) : forall z,
  Abi.be_to_Z (Abi.Z_to_be k z) = z mod 256 ^ Z.of_nat k.
Proof.
  induction k as [| k IH]; intros z.
  - simpl. by rewrite Z.mod_1_r.
  - cbn [Abi.Z_to_be]. rewrite be_to_Z_snoc, IH, byte_of_Z_value.
    rewrite Nat2Z.inj_succ, Z.pow_succ_r by lia.
    rewrite (Z.rem_mul_r z 256 (256 ^ Z.of_nat k)) by lia. lia.
Qed.

Lemma be_to_Z_to_be_32 (z : Z) :
  0 <= z < 2 ^ 32 -> Abi.be_to_Z (Abi.Z_to_be 32 z) = z.
Proof.
  intros Hz. rewrite be_to_Z_to_be.
  assert (2 ^ 32 <= 256 ^ Z.of_nat 32) by (vm_compute; discriminate).
  apply Z.mod_small. lia.
Qed.

(** X11.  [abi.decode] returns the pair behind its ABI encoding, for every
    flag and every score within [uint32], and ignores whatever bytes
    follow the two words; data shorter than the two words is rejected. *)
Theorem decode_encoded_pair (b : bool) (n : Z) (extra : bytes) :
  0 <= n < 2 ^ 32 ->
  Abi.decode_bool_uint32 (Abi.encode_bool_uint32 b n ++ extra) = Some (b, n) /\
  (forall data, (length data < 64)%nat -> Abi.decode_bool_uint32 data = None).
Proof.
  intros Hn. split; [| apply Abi_decode_short].
  unfold Abi.decode_bool_uint32, Abi.encode_bool_uint32, Abi.word.
  rewrite <- !app_assoc.
  change (32 * 0)%nat with 0%nat. change (32 * 1)%nat with 32%nat.
  rewrite drop_0.
  rewrite (take_app_length' (Abi.Z_to_be 32 (if b then 1 else 0)))
    by (by rewrite length_Z_to_be).
  rewrite (drop_app_length' (Abi.Z_to_be 32 (if b then 1 else 0)))
    by (by rewrite length_Z_to_be).
  rewrite (take_app_length' (Abi.Z_to_be 32 n)) by (by rewrite length_Z_to_be).
  rewrite !length_Z_to_be.
  rewrite !decide_True by done. cbn [mbind option_bind].
  rewrite !be_to_Z_to_be_32 by (destruct b; lia).
  assert ((n <? 2 ^ 32) = true) as -> by (apply Z.ltb_lt; lia).
  by destruct b.
Qed.

(** * Further properties of the client *)

Section Client.
Context {Chain : Type}.
Variable Number : Z -> Z.

(** X13.  [decryptData] resolves to a number in two cases only: its read
    of the record showed it verified, and the number is
    [Number(decryptedValue) || 0] of that read with the ledger untouched;
    or the read showed it unverified, the decryption service answered and
    the contract accepted the submitted proof, and the number is the clear
    value the service reported for the handle. *)
Theorem decryptData_value_source
    (contractRead contractWrite : Dashboard.ContractHandle Chain)
    (relayer : Frontend.Relayer) (meanwhile : Chain -> Chain)
    (reloadAt : nat -> Chain) (businessId : string)
    (st : Dashboard.AppState) (chain : Chain) v st' chain' :
  Dashboard.decryptData Number (Some contractRead) (Some contractWrite) relayer
                        meanwhile reloadAt businessId st chain
  = (Some v, st', chain') ->
  (exists businessData,
     Dashboard.getBusinessData contractRead businessId chain
     = Frontend.Resolved businessData /\
     Dashboard.b_isVerified businessData = true /\
     v = Frontend.Num (Frontend.number_or_zero
                         (Number (Dashboard.b_decryptedValue businessData))) /\
     chain' = chain) \/
  (exists businessData handle result,
     Dashboard.getBusinessData contractRead businessId chain
     = Frontend.Resolved businessData /\
     Dashboard.b_isVerified businessData = false /\
     Dashboard.getEncryptedValue contractRead businessId chain
     = Frontend.Resolved handle /\
     relayer [handle] = Frontend.Resolved result /\
     Dashboard.verifyDecryption contractWrite businessId
       (Frontend.abiEncodedClearValues result) (Frontend.decryptionProof result)
       (meanwhile chain)
     = Frontend.Resolved chain' /\
     v = Dashboard.number_of_clear Number handle (Frontend.clearValues result)).
Proof.
  unfold Dashboard.decryptData, Dashboard.decryptData_try.
  destruct (negb (Dashboard.isConnected st) || _); [discriminate |].
  destruct (Dashboard.getBusinessData contractRead businessId chain)
    as [businessData | m] eqn:Hread.
  - destruct (Dashboard.b_isVerified businessData) eqn:Hshown.
    + intros [= <- _ <-]. left. by exists businessData.
    + destruct (Dashboard.getEncryptedValue contractRead businessId chain)
        as [handle | m] eqn:Hhandle.
      * unfold Frontend.useDecrypt_verifyDecryption.
        destruct (relayer [handle]) as [result | m] eqn:Hrel.
        -- destruct (Dashboard.verifyDecryption contractWrite businessId _ _ _)
             as [chain2 | m] eqn:Hsub.
           ++ intros [= <- _ <-]. right. by exists businessData, handle, result.
           ++ by destruct (Frontend.js_includes _ m).
        -- by destruct (Frontend.js_includes _ m).
      * by destruct (Frontend.js_includes _ m).
  - by destruct (Frontend.js_includes _ m).
Qed.

(** X14.  The only write [decryptData] makes to the ledger is one call of
    [verifyDecryption]: the ledger it leaves is the one it found, or the
    one other parties made of it meanwhile, or what that one call made of
    the latter. *)
Theorem decryptData_writes_at_most_once
    (contractRead contractWrite : option (Dashboard.ContractHandle Chain))
    (relayer : Frontend.Relayer) (meanwhile : Chain -> Chain)
    (reloadAt : nat -> Chain) (businessId : string)
    (st : Dashboard.AppState) (chain : Chain) :
  let chain' := (Dashboard.decryptData Number contractRead contractWrite relayer
                   meanwhile reloadAt businessId st chain).2 in
  chain' = chain \/ chain' = meanwhile chain \/
  exists cw payload proof,
    contractWrite = Some cw /\
    Dashboard.verifyDecryption cw businessId payload proof (meanwhile chain)
    = Frontend.Resolved chain'.
Proof.
  unfold Dashboard.decryptData, Dashboard.decryptData_try.
  destruct (negb (Dashboard.isConnected st) || _); [by left |].
  destruct contractRead as [cr |]; [| by left].
  destruct (Dashboard.getBusinessData cr businessId chain) as [businessData | m].
  - destruct (Dashboard.b_isVerified businessData); [by left |].
    destruct contractWrite as [cw |]; [| by left].
    destruct (Dashboard.getEncryptedValue cr businessId chain) as [handle | m].
    + unfold Frontend.useDecrypt_verifyDecryption.
      destruct (relayer [handle]) as [result | m].
      * destruct (Dashboard.verifyDecryption cw businessId _ _ _)
          as [chain2 | m] eqn:Hsub.
        -- right; right. by exists cw, (Frontend.abiEncodedClearValues result),
                                    (Frontend.decryptionProof result).
        -- right; left. by destruct (Frontend.js_includes _ m).
      * right; left. by destruct (Frontend.js_includes _ m).
    + left. by destruct (Frontend.js_includes _ m).
  - left. by destruct (Frontend.js_includes _ m).
Qed.

(** ** The list refresh *)

Variable contract : Dashboard.ContractHandle Chain.
Variable chainAt : nat -> Chain.

Lemma loadRows_sublist businessIds : forall k,
  Dashboard.id <$> Dashboard.loadRows Number contract chainAt k businessIds
  `sublist_of` businessIds.
Proof.
  induction businessIds as [| businessId rest IH]; intros k; simpl; [constructor |].
  destruct (Dashboard.getBusinessData contract businessId (chainAt k)); simpl.
  - by apply sublist_skip.
  - by apply sublist_cons.
Qed.

Lemma loadRows_elem businessIds : forall k row,
  row ∈ Dashboard.loadRows Number contract chainAt k businessIds <->
  exists j businessData,
    businessIds !! j = Some (Dashboard.id row) /\
    Dashboard.getBusinessData contract (Dashboard.id row) (chainAt (k + j)%nat)
    = Frontend.Resolved businessData /\
    row = Dashboard.toEmail Number (Dashboard.id row) businessData.
Proof.
  induction businessIds as [| businessId rest IH]; intros k row; simpl.
  - split; [by intros ?%elem_of_nil | by intros (j & b & ? & _)].
  - assert (row ∈ Dashboard.loadRows Number contract chainAt (S k) rest <->
            exists j businessData,
              rest !! j = Some (Dashboard.id row) /\
              Dashboard.getBusinessData contract (Dashboard.id row)
                                        (chainAt (k + S j)%nat)
              = Frontend.Resolved businessData /\
              row = Dashboard.toEmail Number (Dashboard.id row) businessData) as IH'.
    { rewrite IH. by setoid_rewrite Nat.add_succ_r. }
    destruct (Dashboard.getBusinessData contract businessId (chainAt k))
      as [b0 | m] eqn:Hread.
    + rewrite elem_of_cons, IH'. split.
      * intros [-> | (j & b & Hj & Hb & Hrow)].
        -- exists 0%nat, b0. simpl. by rewrite Nat.add_0_r.
        -- by exists (S j), b.
      * intros ([| j] & b & Hj & Hb & Hrow).
        -- left. simpl in Hj. injection Hj as Hid.
           rewrite Nat.add_0_r, <- Hid, Hread in Hb. injection Hb as <-.
           by rewrite Hrow, <- Hid.
        -- right. by exists j, b.
    + rewrite IH'. split.
      * intros (j & b & Hj & Hb & Hrow). by exists (S j), b.
      * intros ([| j] & b & Hj & Hb & Hrow).
        -- simpl in Hj. injection Hj as Hid.
           rewrite Nat.add_0_r, <- Hid, Hread in Hb. discriminate.
        -- by exists j, b.
Qed.

Lemma loadRows_all businessIds : forall k,
  (forall j businessId,
     businessIds !! j = Some businessId ->
     exists businessData,
       Dashboard.getBusinessData contract businessId (chainAt (k + j)%nat)
       = Frontend.Resolved businessData) ->
  Dashboard.id <$> Dashboard.loadRows Number contract chainAt k businessIds
  = businessIds.
Proof.
  induction businessIds as [| businessId rest IH]; intros k Hall; simpl; [done |].
  destruct (Hall 0%nat businessId eq_refl) as [b Hb].
  rewrite Nat.add_0_r in Hb. rewrite Hb. simpl. f_equal.
  apply IH. intros j bid Hj.
  destruct (Hall (S j) bid Hj) as [b' Hb']. exists b'.
  by rewrite Nat.add_succ_l, <- Nat.add_succ_r.
Qed.

(** X16.  When the id listing resolves, [loadData] shows one row per id
    whose record could be read, in the order in which the contract lists
    the ids, each row holding what [Number] makes of the integers read.  An
    id whose read throws is skipped; when every read resolves the rows name
    exactly the listed ids.  The status banner is left as it was. *)
Theorem loadData_lists_readable_records st businessIds :
  Dashboard.isConnected st = true ->
  Dashboard.getAllBusinessIds contract (chainAt 0%nat) = Frontend.Resolved businessIds ->
  let st' := Dashboard.loadData Number (Some contract) chainAt st in
  Dashboard.id <$> Dashboard.emails st' `sublist_of` businessIds /\
  (forall row,
     row ∈ Dashboard.emails st' <->
     exists j businessData,
       businessIds !! j = Some (Dashboard.id row) /\
       Dashboard.getBusinessData contract (Dashboard.id row) (chainAt (S j))
       = Frontend.Resolved businessData /\
       row = Dashboard.toEmail Number (Dashboard.id row) businessData) /\
  ((forall j businessId,
      businessIds !! j = Some businessId ->
      exists businessData,
        Dashboard.getBusinessData contract businessId (chainAt (S j))
        = Frontend.Resolved businessData) ->
   Dashboard.id <$> Dashboard.emails st' = businessIds) /\
  Dashboard.transactionStatus st' = Dashboard.transactionStatus st.
Proof.
  intros Hconn Hids st'. subst st'. unfold Dashboard.loadData.
  rewrite Hconn, Hids; simpl.
  split; [apply loadRows_sublist |].
  split; [exact (loadRows_elem businessIds 1) |].
  split; [exact (loadRows_all businessIds 1) | done].
Qed.

End Client.

(** X17.  The analysis keeps its percentages in range whatever the score:
    [spamProbability] lies in 0..100 and [trustScore] in 5..100, the two
    add up to 100 as long as the probability is at most 95, and an
    unverified row with no non-zero score of any kind is analysed at 50. *)
Theorem analysis_in_range (email : Dashboard.EmailData)
    (decryptedScore : option Frontend.JsNumber) :
  0 <= Dashboard.spamProbability email decryptedScore <= 100 /\
  5 <= Dashboard.trustScore email decryptedScore <= 100 /\
  (Dashboard.spamProbability email decryptedScore <= 95 ->
   Dashboard.trustScore email decryptedScore
   = 100 - Dashboard.spamProbability email decryptedScore) /\
  (Dashboard.truthy_flag (Dashboard.isVerified email) = false ->
   Dashboard.truthy_number decryptedScore = None ->
   Dashboard.publicValue1 email = 0 ->
   Dashboard.spamProbability email decryptedScore = 50 /\
   Dashboard.trustScore email decryptedScore = 50).
Proof.
  unfold Dashboard.trustScore, Dashboard.spamProbability.
  split; [lia |]. split; [lia |]. split; [lia |].
  intros Hflag Hnum Hpub. unfold Dashboard.spamScore.
  rewrite Hflag, Hnum, Hpub. simpl. lia.
Qed.

Lemma js_includes_empty (haystack : string) : Frontend.js_includes "" haystack = true.
Proof.
  unfold Frontend.js_includes. apply bool_decide_eq_true_2.
  exists 0%nat. by destruct haystack.
Qed.

(** X18.  The filtered list is the list of rows with some rows left out:
    order is kept and nothing is added.  With "Show Verified Only" ticked
    every row shown is verified; with the box clear and a search term whose
    lower case is empty every row is shown. *)
Theorem filter_keeps_order_and_verified (toLowerCase : string -> string)
    (emails : list Dashboard.EmailData) (searchTerm : string) (filterVerified : bool) :
  Dashboard.filteredEmails toLowerCase emails searchTerm filterVerified
  `sublist_of` emails /\
  (filterVerified = true ->
   forall email,
     email ∈ Dashboard.filteredEmails toLowerCase emails searchTerm filterVerified ->
     Dashboard.isVerified email = Some true) /\
  (toLowerCase searchTerm = "" -> filterVerified = false ->
   Dashboard.filteredEmails toLowerCase emails searchTerm filterVerified = emails).
Proof.
  unfold Dashboard.filteredEmails. split; [apply sublist_filter |]. split.
  - intros -> email [Hmatch _]%list_elem_of_filter.
    unfold Dashboard.matchesRow in Hmatch. simpl in Hmatch.
    apply andb_prop in Hmatch as [_ Hflag].
    unfold Dashboard.truthy_flag in Hflag.
    by destruct (Dashboard.isVerified email) as [[|] |].
  - intros Hterm ->. induction emails as [| email rest IH]; [done |].
    rewrite filter_cons, decide_True; [by rewrite IH |].
    unfold Dashboard.matchesRow. by rewrite Hterm, js_includes_empty.
Qed.

Lemma digits_only_all_digits (value : string) (c : Ascii.ascii) :
  c ∈ String.list_ascii_of_string (CreateForm.digits_only value) ->
  CreateForm.is_digit c = true.
Proof.
  induction value as [| a rest IH]; simpl; [by intros ?%elem_of_nil |].
  destruct (CreateForm.is_digit a) eqn:Ha; simpl; [| done].
  intros [-> | Hin]%elem_of_cons; auto.
Qed.

Lemma digits_only_fixed (value : string) :
  (forall c, c ∈ String.list_ascii_of_string value -> CreateForm.is_digit c = true) ->
  CreateForm.digits_only value = value.
Proof.
  induction value as [| a rest IH]; simpl; intros Hall; [done |].
  rewrite (Hall a) by (by left). f_equal. apply IH.
  intros c Hc. apply Hall. by right.
Qed.

Lemma digits_only_none (value : string) :
  (forall c, c ∈ String.list_ascii_of_string value -> CreateForm.is_digit c = false) ->
  CreateForm.digits_only value = "".
Proof.
  induction value as [| a rest IH]; simpl; intros Hall; [done |].
  rewrite (Hall a) by (by left). apply IH.
  intros c Hc. apply Hall. by right.
Qed.

(** X19.  The score field of the form holds digits only: whatever is typed
    into it, [handleChange] stores the digits of the value in their order,
    leaves the other two fields alone, and storing the stored value again
    changes nothing.  A value made of digits is stored as typed; a value
    with no digit leaves the field empty, which keeps the submit button
    disabled. *)
Theorem score_field_holds_digits (value : string) (emailData : CreateForm.FormData) :
  let emailData' := CreateForm.handleChange "spamScore" value emailData in
  (forall c, c ∈ String.list_ascii_of_string (CreateForm.spamScore emailData') ->
             CreateForm.is_digit c = true) /\
  CreateForm.handleChange "spamScore" (CreateForm.spamScore emailData') emailData'
  = emailData' /\
  CreateForm.subject emailData' = CreateForm.subject emailData /\
  CreateForm.sender emailData' = CreateForm.sender emailData /\
  ((forall c, c ∈ String.list_ascii_of_string value -> CreateForm.is_digit c = true) ->
   CreateForm.spamScore emailData' = value) /\
  ((forall c, c ∈ String.list_ascii_of_string value -> CreateForm.is_digit c = false) ->
   forall creating isEncrypting,
     CreateForm.submitDisabled creating isEncrypting emailData' = true).
Proof.
  unfold CreateForm.handleChange. rewrite decide_True by done. simpl.
  split; [apply digits_only_all_digits |]. split.
  - f_equal. apply digits_only_fixed, digits_only_all_digits.
  - split; [done |]. split; [done |]. split; [apply digits_only_fixed |].
    intros Hnone creating isEncrypting. unfold CreateForm.submitDisabled; simpl.
    rewrite (digits_only_none value Hnone). simpl.
    by rewrite !orb_true_r.
Qed.


(** * The properties on concrete inputs *)

Import Scenario.


Lemma ledger1_reachable : @reachable refBytes refFHE ledger1.
Proof. unfold ledger1. apply reachable_run. constructor. Qed.

Lemma ledger2_reachable : @reachable refBytes refFHE ledger2.
Proof. unfold ledger2. apply reachable_run, ledger1_reachable. Qed.

Lemma busy_ledger_reachable : @reachable refBytes refFHE (@run refBytes refFHE initial busy_trace).
Proof. apply reachable_run. constructor. Qed.

Example decode_spam_73 : Abi.decode_bool_uint32 payload_spam = Some (true, 73).
Proof. reflexivity. Qed.

Example decode_short : Abi.decode_bool_uint32 (Abi.Z_to_be 32 73) = None.
Proof. reflexivity. Qed.

Example decode_bad_flag :
  Abi.decode_bool_uint32 (Abi.Z_to_be 32 2 ++ Abi.Z_to_be 32 73) = None.
Proof. reflexivity. Qed.

Example decode_wide_score :
  Abi.decode_bool_uint32 (Abi.Z_to_be 32 1 ++ Abi.Z_to_be 32 (2 ^ 32)) = None.
Proof. reflexivity. Qed.

Example three_creations_listed_in_order :
  getAllEmailIds (@run refBytes refFHE initial busy_trace) = ["email-1"; "email-2"; "email-3"].
Proof. vm_compute. reflexivity. Qed.

Lemma verified_once_and_atomic_witness :
  @reachable refBytes refFHE ledger2 /\
  @verifySpamStatus refBytes refFHE "email-1" payload_ham [] ledger2
  = Reverted (RequireFailed "Email already verified").
Proof.
  split; [exact ledger2_reachable |].
  destruct (@verified_once_and_atomic refBytes refFHE ledger2 "email-1" payload_ham []
              ledger2_reachable) as (Hrev & _).
  apply Hrev. vm_compute; reflexivity.
Defined.

(** With every address 20 bytes long the first submission is refused as a
    duplicate; with every address 0 bytes long a second one goes through. *)
Example first_submission_refused :
  @processEmail (fixedBytes 20) refFHE alice "email-1" 77 [Byte.x01] 5 initial
  = Reverted (RequireFailed "Email already processed").
Proof. reflexivity. Qed.

Example second_submission_accepted :
  getAllEmailIds
    (@run (fixedBytes 0) refFHE initial
       [submit1; CallProcessEmail bob "email-1" 99 [Byte.x02] 9])
  = ["email-1"; "email-1"].
Proof. vm_compute. reflexivity. Qed.


Lemma wrong_signature_then_valid_witness :
  @recorded refBytes ledger1 "email-1" = true /\
  isVerified (registry_at ledger1 "email-1") = false /\
  @checkSignatures refFHE
    [@toBytes32 refFHE (encryptedContent (registry_at ledger1 "email-1"))]
    payload_spam [] = false /\
  @verifySpamStatus refBytes refFHE "email-1" payload_spam [] ledger1
  = Reverted CheckSignaturesReverted.
Proof.
  assert (@recorded refBytes ledger1 "email-1" = true) as Hrec by (vm_compute; reflexivity).
  assert (isVerified (registry_at ledger1 "email-1") = false) as Hv
    by (vm_compute; reflexivity).
  assert (@checkSignatures refFHE
            [@toBytes32 refFHE (encryptedContent (registry_at ledger1 "email-1"))]
            payload_spam [] = false) as Hbad by (vm_compute; reflexivity).
  split; [exact Hrec |]. split; [exact Hv |]. split; [exact Hbad |].
  apply (@wrong_signature_then_valid refBytes refFHE ledger1 "email-1" payload_spam []
           Hrec Hv Hbad).
Defined.


Lemma ids_in_creation_order_witness :
  forallb is_verify [disclose_spam; disclose_ham] = true /\
  getAllEmailIds (@run refBytes refFHE ledger1 [disclose_spam; disclose_ham])
  = getAllEmailIds ledger1.
Proof.
  assert (forallb is_verify [disclose_spam; disclose_ham] = true) as Hall
    by reflexivity.
  split; [exact Hall |].
  apply (@ids_in_creation_order refBytes refFHE ledger1 [disclose_spam; disclose_ham]).
  exact Hall.
Defined.

Lemma verify_frame_witness :
  @verifySpamStatus refBytes refFHE "email-1" payload_spam (ref_sign [77] payload_spam) ledger1
  = Ok ledger2 /\
  emailIds ledger2 = emailIds ledger1 /\
  sender (registry_at ledger2 "email-1") = sender (registry_at ledger1 "email-1").
Proof.
  assert (@verifySpamStatus refBytes refFHE "email-1" payload_spam
            (ref_sign [77] payload_spam) ledger1 = Ok ledger2) as Hok
    by (vm_compute; reflexivity).
  split; [exact Hok |].
  destruct (@verify_frame refBytes refFHE ledger1 "email-1" payload_spam
              (ref_sign [77] payload_spam) ledger2 Hok)
    as (_ & _ & Hsender & _ & Hids & _).
  split; [exact Hids | exact Hsender].
Defined.

(** C2 does not hold as stated: the signature below is bound to handle 78,
    not to the stored handle 77, and the disclosure that carries it reverts
    with the very failure of a disclosure that carries no signature at all.
    No error of its own reports the mismatch. *)
Lemma mismatch_is_a_signature_failure :
  encryptedContent (registry_at ledger1 "email-1") = 77 /\
  @checkSignatures refFHE [78] payload_spam (ref_sign [78] payload_spam) = true /\
  @verifySpamStatus refBytes refFHE "email-1" payload_spam (ref_sign [78] payload_spam) ledger1
  = Reverted CheckSignaturesReverted /\
  @verifySpamStatus refBytes refFHE "email-1" payload_spam [] ledger1
  = Reverted CheckSignaturesReverted.
Proof. vm_compute. repeat split. Qed.

Lemma signatures_bound_to_stored_handle_witness :
  @recorded refBytes ledger1 "email-1" = true /\
  isVerified (registry_at ledger1 "email-1") = false /\
  @checkSignatures refFHE
    [@toBytes32 refFHE (encryptedContent (registry_at ledger1 "email-1"))]
    payload_spam (ref_sign [78] payload_spam) = false /\
  @verifySpamStatus refBytes refFHE "email-1" payload_spam (ref_sign [78] payload_spam) ledger1
  = Reverted CheckSignaturesReverted.
Proof.
  assert (@recorded refBytes ledger1 "email-1" = true) as Hrec by (vm_compute; reflexivity).
  assert (isVerified (registry_at ledger1 "email-1") = false) as Hv
    by (vm_compute; reflexivity).
  assert (@checkSignatures refFHE
            [@toBytes32 refFHE (encryptedContent (registry_at ledger1 "email-1"))]
            payload_spam (ref_sign [78] payload_spam) = false) as Hbad
    by (vm_compute; reflexivity).
  split; [exact Hrec |]. split; [exact Hv |]. split; [exact Hbad |].
  apply (@signatures_bound_to_stored_handle refBytes refFHE ledger1 "email-1" payload_spam
           (ref_sign [78] payload_spam)); assumption.
Defined.

(** C6 does not hold as stated: no predicate on the score yields the
    committed flag.  From the same ledger, two disclosures with the same
    score 73 commit the flags true and false. *)
Lemma flag_is_not_a_function_of_score :
  ~ exists classify : Z -> bool,
      forall emailId payload proof s s',
        @verifySpamStatus refBytes refFHE emailId payload proof s = Ok s' ->
        isSpam (registry_at s' emailId)
        = classify (decryptedScore (registry_at s' emailId)).
Proof.
  intros [classify Hfun].
  assert (@verifySpamStatus refBytes refFHE "email-1" payload_spam
            (ref_sign [77] payload_spam) ledger1 = Ok ledger2) as Hspam
    by (vm_compute; reflexivity).
  assert (@verifySpamStatus refBytes refFHE "email-1" payload_ham
            (ref_sign [77] payload_ham) ledger1 = Ok ledger2_ham) as Hham
    by (vm_compute; reflexivity).
  apply Hfun in Hspam. apply Hfun in Hham.
  vm_compute in Hspam. vm_compute in Hham. congruence.
Qed.

Lemma flag_decoded_from_payload_witness :
  @verifySpamStatus refBytes refFHE "email-1" payload_ham (ref_sign [77] payload_ham) ledger1
  = Ok ledger2_ham /\
  exists spam score,
    Abi.decode_bool_uint32 payload_ham = Some (spam, score) /\
    @checkSignatures refFHE
      [@toBytes32 refFHE (encryptedContent (registry_at ledger1 "email-1"))]
      payload_ham (ref_sign [77] payload_ham) = true /\
    0 <= score < 2 ^ 32 /\
    (forall calls,
       isSpam (registry_at (@run refBytes refFHE ledger2_ham calls) "email-1") = spam /\
       decryptedScore (registry_at (@run refBytes refFHE ledger2_ham calls) "email-1") = score).
Proof.
  assert (@verifySpamStatus refBytes refFHE "email-1" payload_ham
            (ref_sign [77] payload_ham) ledger1 = Ok ledger2_ham) as Hok
    by (vm_compute; reflexivity).
  split; [exact Hok |].
  apply (@flag_decoded_from_payload refBytes refFHE ledger1 "email-1" payload_ham
           (ref_sign [77] payload_ham) ledger2_ham Hok).
Defined.

(** C8 does not hold as stated: the read of the unverified record
    ["email-1"] returns a disclosed score, 0, and a flag, false. *)
Lemma unverified_read_exposes_values :
  @reachable refBytes refFHE ledger1 /\
  isVerified (registry_at ledger1 "email-1") = false /\
  @getEmailData refBytes "email-1" ledger1 = Ok (5, 4096, 1700000000, false, 0, false).
Proof.
  split; [exact ledger1_reachable |]. vm_compute. split; reflexivity.
Qed.

Lemma unverified_holds_creation_defaults_witness :
  @reachable refBytes refFHE ledger1 /\
  isVerified (registry_at ledger1 "email-1") = false /\
  isSpam (registry_at ledger1 "email-1") = false /\
  decryptedScore (registry_at ledger1 "email-1") = 0.
Proof.
  assert (isVerified (registry_at ledger1 "email-1") = false) as Hv
    by (vm_compute; reflexivity).
  split; [exact ledger1_reachable |]. split; [exact Hv |].
  destruct (@unverified_holds_creation_defaults refBytes refFHE ledger1 "email-1"
              ledger1_reachable Hv) as (Hspam & Hscore & _).
  split; [exact Hspam | exact Hscore].
Defined.

(** C5 does not hold as stated.  The first [decryptData] has the proof
    accepted and resolves to 73.  A second one that read the record before
    that disclosure was mined and submits the proof after it is rejected,
    as the contract rejects a second [verifySpamStatus], and resolves to
    null, not to the committed values, whether the rejection reads "Email
    already verified", as the contract words it, or "Data already
    verified", as the workflow looks for it. *)
Lemma lost_race_resolves_to_null :
  let contract := Some (Samples.sampleHandle "Email already verified") in
  let expected := Some (Samples.sampleHandle "Data already verified") in
  let first := Dashboard.decryptData Samples.exactNumber contract contract
                 Samples.sampleRelayer (fun c => c) (fun _ => Samples.disclosedLedger)
                 "email-1" Samples.app0 Samples.sampleLedger in
  let second := Dashboard.decryptData Samples.exactNumber contract contract
                  Samples.sampleRelayer (fun _ => first.2) (fun _ => first.2)
                  "email-1" Samples.app0 Samples.sampleLedger in
  let second' := Dashboard.decryptData Samples.exactNumber expected expected
                   Samples.sampleRelayer (fun _ => first.2) (fun _ => first.2)
                   "email-1" Samples.app0 Samples.sampleLedger in
  @verifySpamStatus refBytes refFHE "email-1" payload_spam
    (ref_sign [77] payload_spam) ledger2
  = Reverted (RequireFailed "Email already verified") /\
  first.1.1 = Some (Frontend.Num 73) /\
  (Dashboard.b_isVerified <$> Samples.find_record "email-1" first.2) = Some true /\
  (Dashboard.b_decryptedValue <$> Samples.find_record "email-1" first.2) = Some 73 /\
  second.1.1 = None /\ second.2 = first.2 /\
  second'.1.1 = None /\ second'.2 = first.2.
Proof. vm_compute. repeat split. Qed.

Lemma second_disclosure_witness :
  @reachable refBytes refFHE ledger2 /\
  isVerified (registry_at ledger2 "email-1") = true /\
  Dashboard.isConnected Samples.app0 = true /\
  @verifySpamStatus refBytes refFHE "email-1" payload_spam
    (ref_sign [77] payload_spam) ledger2
  = Reverted (RequireFailed "Email already verified") /\
  (Dashboard.decryptData Samples.exactNumber
     (Some (Samples.sampleHandle "Email already verified"))
     (Some (Samples.sampleHandle "Email already verified"))
     Samples.sampleRelayer (fun c => c) (fun _ => Samples.disclosedLedger)
     "email-1" Samples.app0 Samples.disclosedLedger).1.1
  = Some (Frontend.Num 73).
Proof.
  assert (isVerified (registry_at ledger2 "email-1") = true) as Hv
    by (vm_compute; reflexivity).
  assert (Dashboard.isConnected Samples.app0 = true) as Hconn by reflexivity.
  assert (is_Some (Dashboard.account Samples.app0)) as Hacc by (by eexists).
  split; [exact ledger2_reachable |]. split; [exact Hv |]. split; [exact Hconn |].
  destruct (@second_disclosure refBytes refFHE Samples.Ledger ledger2 "email-1"
              Samples.exactNumber (Samples.sampleHandle "Email already verified")
              Samples.sampleRelayer (fun c => c) (fun _ => Samples.disclosedLedger)
              "email-1" Samples.app0 Samples.disclosedLedger
              ledger2_reachable Hv Hconn Hacc)
    as (Hstore & Hfast & _).
  split; [apply Hstore |].
  by rewrite (Hfast (Some (Samples.sampleHandle "Email already verified"))
                (Samples.mark_verified 73 Samples.record1) eq_refl eq_refl).
Defined.

(** ** The further properties on concrete inputs *)

Lemma stored_handle_initialized_and_granted_witness :
  @reachable refBytes refFHE ledger1 /\
  "email-1" ∈ getAllEmailIds ledger1 /\
  @getEncryptedContent refBytes "email-1" ledger1 = Ok 77 /\
  @isInitialized refFHE 77 = true /\
  AllowThis 77 ∈ fheAcl ledger1 /\
  PubliclyDecryptable 77 ∈ fheAcl ledger1.
Proof.
  assert ("email-1" ∈ getAllEmailIds ledger1) as Hin by (vm_compute; left).
  assert (@getEncryptedContent refBytes "email-1" ledger1 = Ok 77) as Hget
    by (vm_compute; reflexivity).
  split; [exact ledger1_reachable |]. split; [exact Hin |]. split; [exact Hget |].
  exact (@stored_handle_initialized_and_granted refBytes refFHE ledger1 "email-1" 77
           ledger1_reachable Hin Hget).
Defined.

Lemma stored_score_fits_uint32_witness :
  @reachable refBytes refFHE ledger2 /\
  @getEmailData refBytes "email-1" ledger2 = Ok (5, 4096, 1700000000, true, 73, true) /\
  0 <= 73 < 2 ^ 32.
Proof.
  assert (@getEmailData refBytes "email-1" ledger2 = Ok (5, 4096, 1700000000, true, 73, true))
    as Hget by (vm_compute; reflexivity).
  split; [exact ledger2_reachable |]. split; [exact Hget |].
  exact (@stored_score_fits_uint32 refBytes refFHE ledger2 "email-1" 5 4096 1700000000
           true 73 true ledger2_reachable Hget).
Defined.

Lemma call_touches_only_its_record_witness :
  "email-2" ≠ call_id disclose_spam /\
  emailRegistry (@apply_call refBytes refFHE (@run refBytes refFHE initial busy_trace) disclose_spam)
  !! "email-2"
  = emailRegistry (@run refBytes refFHE initial busy_trace) !! "email-2".
Proof.
  assert ("email-2" ≠ call_id disclose_spam) as Hne by (vm_compute; discriminate).
  split; [exact Hne |].
  destruct (@call_touches_only_its_record refBytes refFHE (@run refBytes refFHE initial busy_trace)
              disclose_spam) as [Hframe _].
  exact (Hframe "email-2" Hne).
Defined.

Lemma processed_events_mirror_ids_witness :
  @reachable refBytes refFHE (@run refBytes refFHE initial busy_trace) /\
  processed_ids (eventLog (@run refBytes refFHE initial busy_trace))
  = getAllEmailIds (@run refBytes refFHE initial busy_trace).
Proof.
  split; [exact busy_ledger_reachable |].
  exact (@processed_events_mirror_ids refBytes refFHE _ busy_ledger_reachable).
Defined.

Lemma verification_events_match_records_witness :
  @reachable refBytes refFHE (@run refBytes refFHE initial busy_trace) /\
  (SpamVerification "email-3" false 73 ∈ eventLog (@run refBytes refFHE initial busy_trace) <->
   isSpam (registry_at (@run refBytes refFHE initial busy_trace) "email-3") = false /\
   decryptedScore (registry_at (@run refBytes refFHE initial busy_trace) "email-3") = 73 /\
   isVerified (registry_at (@run refBytes refFHE initial busy_trace) "email-3") = true).
Proof.
  split; [exact busy_ledger_reachable |].
  destruct (@verification_events_match_records refBytes refFHE
              (@run refBytes refFHE initial busy_trace) "email-3" false 73
              busy_ledger_reachable) as [Hiff _].
  exact Hiff.
Defined.

Lemma present_record_rejects_creation_witness :
  @recorded refBytes ledger1 "email-1" = true /\
  @processEmail refBytes refFHE bob "email-1" 99 [Byte.x02] 9
    (@run refBytes refFHE ledger1 busy_trace)
  = Reverted (RequireFailed "Email already processed").
Proof.
  assert (@recorded refBytes ledger1 "email-1" = true) as Hrec
    by (vm_compute; reflexivity).
  split; [exact Hrec |].
  destruct (@present_record_rejects_creation refBytes refFHE ledger1 "email-1"
              busy_trace bob 99 [Byte.x02] 9 Hrec) as [Hrev _].
  exact Hrev.
Defined.

Lemma undecodable_payload_reverts_witness :
  Abi.decode_bool_uint32 Samples.one_word = None /\
  @verifySpamStatus refBytes refFHE "email-1" Samples.one_word
    (ref_sign [77] Samples.one_word) ledger1
  = Reverted AbiDecodeReverted.
Proof.
  assert (Abi.decode_bool_uint32 Samples.one_word = None) as Hdec by reflexivity.
  split; [exact Hdec |].
  destruct (@undecodable_payload_reverts refBytes refFHE "email-1" Samples.one_word
              (ref_sign [77] Samples.one_word) ledger1 Hdec) as [_ Hrev].
  apply Hrev; vm_compute; reflexivity.
Defined.

Lemma short_payload_never_verifies_witness :
  (length Samples.one_word < 64)%nat /\
  exists r,
    @verifySpamStatus refBytes refFHE "email-1" Samples.one_word
      (ref_sign [77] Samples.one_word) ledger1 = Reverted r.
Proof.
  assert (length Samples.one_word < 64)%nat as Hlen by (vm_compute; lia).
  split; [exact Hlen |].
  exact (@short_payload_never_verifies refBytes refFHE "email-1" Samples.one_word
           (ref_sign [77] Samples.one_word) ledger1 Hlen).
Defined.

Lemma decode_encoded_pair_witness :
  0 <= 73 < 2 ^ 32 /\
  Abi.decode_bool_uint32 (Abi.encode_bool_uint32 true 73 ++ [Byte.xff]) = Some (true, 73).
Proof.
  assert (0 <= 73 < 2 ^ 32) as Hn by lia.
  split; [exact Hn |].
  destruct (decode_encoded_pair true 73 [Byte.xff] Hn) as [Hdec _]. exact Hdec.
Defined.

Lemma decryptData_value_source_witness :
  let contract := Samples.sampleHandle "Email already verified" in
  let out := Dashboard.decryptData Samples.exactNumber (Some contract) (Some contract)
               Samples.sampleRelayer (fun c => c) (fun _ => Samples.disclosedLedger)
               "email-1" Samples.app0 Samples.sampleLedger in
  out = (Some (Frontend.Num 73), out.1.2, out.2) /\
  Dashboard.verifyDecryption contract "email-1" (Abi.Z_to_be 32 73) []
                             Samples.sampleLedger
  = Frontend.Resolved out.2.
Proof.
  intros contract out.
  assert (out = (Some (Frontend.Num 73), out.1.2, out.2)) as Hout
    by (vm_compute; reflexivity).
  split; [exact Hout |].
  destruct (@decryptData_value_source Samples.Ledger Samples.exactNumber
              contract contract Samples.sampleRelayer (fun c => c)
              (fun _ => Samples.disclosedLedger) "email-1" Samples.app0
              Samples.sampleLedger (Frontend.Num 73) out.1.2 out.2 Hout)
    as [(b & Hread & Hshown & _) | (b & h & result & _ & _ & _ & Hrel & Hsub & _)].
  - vm_compute in Hread. injection Hread as <-. discriminate.
  - vm_compute in Hrel. injection Hrel as <-. exact Hsub.
Defined.

(** On the "Data already verified" path the refresh comes after the
    success banner: when the id listing cannot be read, the workflow ends
    under the banner of the refresh. *)
Example decryptData_refresh_can_end_in_error :
  let out := Dashboard.decryptData Samples.exactNumber
               (Some Samples.offline) (Some Samples.offline)
               Samples.sampleRelayer (fun c => c) (fun _ => tt)
               "email-1" Samples.app0 tt in
  out.1.1 = None /\
  Dashboard.transactionStatus out.1.2
  = Frontend.mkStatus true Frontend.Error "Failed to load data" /\
  Dashboard.isDecrypting out.1.2 = false.
Proof. vm_compute. repeat split. Qed.

Lemma loadData_lists_readable_records_witness :
  Dashboard.isConnected Samples.app0 = true /\
  Dashboard.getAllBusinessIds Samples.listing tt
  = Frontend.Resolved ["email-1"; "email-2"; "email-3"] /\
  Dashboard.id <$> Dashboard.emails
    (Dashboard.loadData Samples.exactNumber (Some Samples.listing) (fun _ => tt)
                        Samples.app0)
  `sublist_of` ["email-1"; "email-2"; "email-3"].
Proof.
  assert (Dashboard.isConnected Samples.app0 = true) as Hconn by reflexivity.
  assert (Dashboard.getAllBusinessIds Samples.listing tt
          = Frontend.Resolved ["email-1"; "email-2"; "email-3"]) as Hids
    by reflexivity.
  split; [exact Hconn |]. split; [exact Hids |].
  destruct (@loadData_lists_readable_records unit Samples.exactNumber Samples.listing
              (fun _ => tt) Samples.app0 ["email-1"; "email-2"; "email-3"]
              Hconn Hids)
    as [Hsub _].
  exact Hsub.
Defined.

Example loadData_skips_unreadable :
  Dashboard.id <$> Dashboard.emails
    (Dashboard.loadData Samples.exactNumber (Some Samples.listing) (fun _ => tt)
                        Samples.app0)
  = ["email-1"; "email-3"].
Proof. reflexivity. Qed.

Lemma analysis_in_range_witness :
  Dashboard.truthy_flag (Dashboard.isVerified (Samples.row "email-2" false 0 0)) = false /\
  Dashboard.truthy_number (Some Frontend.NaN) = None /\
  Dashboard.publicValue1 (Samples.row "email-2" false 0 0) = 0 /\
  Dashboard.spamProbability (Samples.row "email-2" false 0 0) (Some Frontend.NaN) = 50 /\
  Dashboard.trustScore (Samples.row "email-2" false 0 0) (Some Frontend.NaN) = 50.
Proof.
  split; [reflexivity |]. split; [reflexivity |]. split; [reflexivity |].
  destruct (analysis_in_range (Samples.row "email-2" false 0 0) (Some Frontend.NaN))
    as (_ & _ & _ & Hdefault).
  apply Hdefault; reflexivity.
Defined.

Lemma filter_keeps_order_and_verified_witness :
  Samples.lower "" = "" /\
  Dashboard.filteredEmails Samples.lower Samples.rows "" false = Samples.rows /\
  forall email,
    email ∈ Dashboard.filteredEmails Samples.lower Samples.rows "HI" true ->
    Dashboard.isVerified email = Some true.
Proof.
  assert (Samples.lower "" = "") as Hterm by reflexivity.
  split; [exact Hterm |].
  destruct (filter_keeps_order_and_verified Samples.lower Samples.rows "" false)
    as (_ & _ & Hall).
  destruct (filter_keeps_order_and_verified Samples.lower Samples.rows "HI" true)
    as (_ & Hver & _).
  split; [exact (Hall Hterm eq_refl) | exact (Hver eq_refl)].
Defined.

Example filter_shows_verified_matches :
  Dashboard.id <$> Dashboard.filteredEmails Samples.lower Samples.rows "HI" true
  = ["email-1"; "email-3"].
Proof. vm_compute. reflexivity. Qed.

Lemma score_field_holds_digits_witness :
  (forall c, c ∈ String.list_ascii_of_string "-e." -> CreateForm.is_digit c = false) /\
  CreateForm.submitDisabled false false
    (CreateForm.handleChange "spamScore" "-e." Samples.form0) = true /\
  CreateForm.spamScore (CreateForm.handleChange "spamScore" "7a3" Samples.form0) = "73".
Proof.
  assert (forall c, c ∈ String.list_ascii_of_string "-e." ->
                    CreateForm.is_digit c = false) as Hnone.
  { intros c Hc. simpl in Hc.
    repeat (apply elem_of_cons in Hc as [-> | Hc]; [reflexivity |]).
    by apply elem_of_nil in Hc. }
  split; [exact Hnone |].
  destruct (score_field_holds_digits "-e." Samples.form0)
    as (_ & _ & _ & _ & _ & Hdisabled).
  split; [exact (Hdisabled Hnone false false) | reflexivity].
Defined.

Lemma records_are_never_deleted_witness :
  @recorded refBytes ledger1 "email-1" = true /\
  @recorded refBytes (@run refBytes refFHE ledger1 busy_trace) "email-1" = true /\
  @getEncryptedContent refBytes "email-1" (@run refBytes refFHE ledger1 busy_trace)
  = @getEncryptedContent refBytes "email-1" ledger1.
Proof.
  assert (@recorded refBytes ledger1 "email-1" = true) as Hrec by (vm_compute; reflexivity).
  split; [exact Hrec |].
  destruct (@records_are_never_deleted refBytes refFHE ledger1 "email-1" busy_trace Hrec)
    as (Hstill & _ & Hget & _).
  split; [exact Hstill | exact Hget].
Defined.
